(** * mcp-instana: a shallow embedding of the MCP server for IBM Instana

    The development follows the source files of the repository:
    - [src/mcp_instana/main.py]: command line, credentials, exit codes;
    - [src/mcp_instana/server.py]: [_safe_dump], the logging and tag-filter
      middleware, and [run], which wires the middleware chain;
    - [src/mcp_instana/tools/trending/top_performance.py]: the tool
      [list_top_applications_by_performance].

    Python code that raises is embedded in a state-and-exception monad over
    an explicit [World] (log records, the [settings] module globals, the
    middleware list of the [mcp] object, and the calls made to the outside).
    Functions of the Python runtime and of the frameworks the program calls
    (argparse, json, logging, fastmcp, the Instana client) are not part of
    the repository: they are taken as section variables, so every theorem
    holds for each behaviour they can have. *)

From Stdlib Require Import ZArith String Ascii List Lia DecimalString.
From stdpp Require Import base option list strings gmap.

Import ListNotations.

Set Warnings "-register-all".
Set Default Proof Using "Type".

(** ** The Python runtime: exceptions, outcomes, the monad *)

Module Py.

(** Exception classes the program names or meets.  Every class here derives
    from [Exception]; [mro] lists the modelled classes an instance belongs
    to, most specific first, as Python's method resolution order does. *)
Inductive ExcClass :=
| ValueError
| TypeError
| AttributeError
| NameError
| UnboundLocalError
| OSError
| ConnectionError
| BrokenPipeError
| ConnectionAbortedError
| ConnectionRefusedError
| ConnectionResetError
| TimeoutError
| ToolError
| OtherError (name : string).

#[global] Instance ExcClass_eq_dec : EqDecision ExcClass.
Proof. solve_decision. Defined.

Definition mro (c : ExcClass) : list ExcClass :=
  match c with
  | UnboundLocalError => [UnboundLocalError; NameError]
  | ConnectionError => [ConnectionError; OSError]
  | BrokenPipeError => [BrokenPipeError; ConnectionError; OSError]
  | ConnectionAbortedError => [ConnectionAbortedError; ConnectionError; OSError]
  | ConnectionRefusedError => [ConnectionRefusedError; ConnectionError; OSError]
  | ConnectionResetError => [ConnectionResetError; ConnectionError; OSError]
  | TimeoutError => [TimeoutError; OSError]
  | c => [c]
  end.

(** An instance of a subclass of [Exception]: its class and [str(e)]. *)
Record Exception := mkExc { exc_class : ExcClass; exc_text : string }.

(** [isinstance(e, (c1, ..., cn))]. *)
Definition isinstance (e : Exception) (classes : list ExcClass) : bool :=
  existsb (fun c => bool_decide (c ∈ mro (exc_class e))) classes.

(** What a [raise] can carry.  [SystemExit], [KeyboardInterrupt] and
    [CancelledError] derive from [BaseException] only, so that
    [except Exception] lets them through. *)
Inductive BaseException :=
| SystemExit (code : Z)
| KeyboardInterrupt
| CancelledError
| Exc (e : Exception).

Inductive Outcome (E A : Type) :=
| Ok (a : A)
| Raise (e : E).
Arguments Ok {E A} a.
Arguments Raise {E A} e.

(** A computation over a state [S] that returns or raises; the state
    survives a raise (what was logged stays logged). *)
Definition M (S A : Type) : Type := S -> Outcome BaseException A * S.

Definition ret {S A} (a : A) : M S A := fun s => (Ok a, s).

Definition bind {S A B} (m : M S A) (k : A -> M S B) : M S B :=
  fun s =>
    match m s with
    | (Ok a, s') => k a s'
    | (Raise e, s') => (Raise e, s')
    end.

Definition raise {S A} (e : BaseException) : M S A := fun s => (Raise e, s).

Definition raise_exc {S A} (c : ExcClass) (text : string) : M S A :=
  raise (Exc (mkExc c text)).

(** [sys.exit(code)]. *)
Definition sys_exit {S A} (code : Z) : M S A := raise (SystemExit code).

(** A call of a runtime function that raises only [Exception]s. *)
Definition call {S A} (r : Outcome Exception A) : M S A :=
  match r with
  | Ok a => ret a
  | Raise e => raise (Exc e)
  end.

(** [await] of a coroutine of the framework: it returns, or raises
    anything a [raise] can carry (a cancellation included). *)
Definition await {S A} (r : Outcome BaseException A) : M S A := fun s => (r, s).

Definition modify {S} (f : S -> S) : M S unit := fun s => (Ok tt, f s).

Definition gets {S A} (f : S -> A) : M S A := fun s => (Ok (f s), s).

(** [try: body / except Exception as e: handler e]. *)
Definition try_except {S A} (body : M S A) (handler : Exception -> M S A) : M S A :=
  fun s =>
    match body s with
    | (Raise (Exc e), s') => handler e s'
    | r => r
    end.

(** [try: body / except KeyboardInterrupt: on_interrupt /
    except Exception as e: on_exception e].  An exception raised by a
    handler is not offered to the other clause. *)
Definition try_except_interrupt {S A} (body : M S A) (on_interrupt : M S A)
    (on_exception : Exception -> M S A) : M S A :=
  fun s =>
    match body s with
    | (Raise KeyboardInterrupt, s') => on_interrupt s'
    | (Raise (Exc e), s') => on_exception e s'
    | r => r
    end.

(** [try: body / finally: final].  [final] runs on both exits; when it
    returns, the outcome of [body] stands. *)
Definition try_finally {S A} (body : M S A) (final : M S unit) : M S A :=
  fun s =>
    match body s with
    | (r, s') =>
        match final s' with
        | (Ok _, s'') => (r, s'')
        | (Raise e, s'') => (Raise e, s'')
        end
    end.

(** Local variables: a name is unbound until its first assignment, and
    reading an unbound local raises [UnboundLocalError]. *)
Definition read_local {S A} (name : string) (v : option A) : M S A :=
  match v with
  | Some a => ret a
  | None =>
      raise_exc UnboundLocalError
        ("cannot access local variable '" +:+ name
           +:+ "' where it is not associated with a value")
  end.

(** Python's [s[:stop]] on a [str]: a negative [stop] counts from the end. *)
Definition slice_to (stop : Z) (s : string) : string :=
  if (stop <? 0)%Z
  then substring 0 (Z.to_nat (Z.of_nat (String.length s) + stop)) s
  else substring 0 (Z.to_nat stop) s.

(** [s.split(sep)] for a one-character separator: the pieces between the
    separators, empty pieces included. *)
Fixpoint split_on (sep : ascii) (s : string) : list string :=
  match s with
  | EmptyString => [EmptyString]
  | String c rest =>
      if decide (c = sep) then EmptyString :: split_on sep rest
      else
        match split_on sep rest with
        | piece :: pieces => String c piece :: pieces
        | [] => [String c EmptyString]
        end
  end.

(** [s.startswith(prefix)]. *)
Definition startswith (pre s : string) : bool := String.prefix pre s.

(** [s.strip()] restricted to the space character, the only blank the
    program's own format strings produce. *)
Fixpoint lstrip (s : string) : string :=
  match s with
  | String " " rest => lstrip rest
  | _ => s
  end.

Definition strip (s : string) : string :=
  String.rev (lstrip (String.rev (lstrip s))).

(** [f"{s:<24}"]: left-justified in a field of [width] characters. *)
Definition ljust (width : nat) (s : string) : string :=
  s +:+ string_of_list_ascii (replicate (width - String.length s) " "%char).

(** [str(n)] for an [int]. *)
Definition str_of_Z (z : Z) : string :=
  DecimalString.NilZero.string_of_int (Z.to_int z).
#[global] Arguments str_of_Z : simpl never.

End Py.

Export Py.

Declare Scope py_scope.
Delimit Scope py_scope with py.
Notation "x <- m ;; k" := (bind m (fun x => k))
  (at level 100, m at next level, right associativity) : py_scope.
Notation "m ;; k" := (bind m (fun _ => k))
  (at level 100, right associativity) : py_scope.

Local Open Scope py_scope.

(** ** Python values met at run time *)

Module Value.

(** The dynamically typed values the middleware inspects: JSON-like data
    and instances with attributes (a [MiddlewareContext], a request's
    parameters).  A [VDict] and the attributes of a [VObj] are association
    lists with the keys in insertion order. *)
Inductive PyVal :=
| VNone
| VBool (b : bool)
| VInt (z : Z)
| VStr (s : string)
| VList (items : list PyVal)
| VDict (items : list (string * PyVal))
| VObj (cls : string) (attrs : list (string * PyVal)).

Fixpoint assoc {A} (key : string) (items : list (string * A)) : option A :=
  match items with
  | [] => None
  | (k, v) :: rest => if decide (k = key) then Some v else assoc key rest
  end.

(** [bool(v)]; an instance is true unless its class says otherwise. *)
Definition truthy (v : PyVal) : bool :=
  match v with
  | VNone => false
  | VBool b => b
  | VInt z => negb (z =? 0)%Z
  | VStr s => negb (bool_decide (s = ""))
  | VList items => negb (bool_decide (items = []))
  | VDict items => negb (bool_decide (items = []))
  | VObj _ _ => true
  end.

(** [a or b] once both operands are evaluated. *)
Definition py_or (a b : PyVal) : PyVal := if truthy a then a else b.

Definition is_none (v : PyVal) : bool :=
  match v with VNone => true | _ => false end.

(** [v == "literal"]. *)
Definition eq_str (v : PyVal) (lit : string) : bool :=
  match v with VStr s => bool_decide (s = lit) | _ => false end.

(** [getattr(o, name, None)] for the data attributes [method], [source]
    and [message], which the built-in types do not have. *)
Definition getattr_default (o : PyVal) (name : string) : PyVal :=
  match o with
  | VObj _ attrs => default VNone (assoc name attrs)
  | _ => VNone
  end.

Definition type_name (v : PyVal) : string :=
  match v with
  | VNone => "NoneType"
  | VBool _ => "bool"
  | VInt _ => "int"
  | VStr _ => "str"
  | VList _ => "list"
  | VDict _ => "dict"
  | VObj cls _ => cls
  end.

Definition no_attribute (v : PyVal) (name : string) : Exception :=
  mkExc AttributeError
    ("'" +:+ type_name v +:+ "' object has no attribute '" +:+ name +:+ "'").

(** [o.name] for a data attribute: [AttributeError] when it is missing. *)
Definition getattr (o : PyVal) (name : string) : Outcome Exception PyVal :=
  match o with
  | VObj _ attrs =>
      match assoc name attrs with
      | Some v => Ok v
      | None => Raise (no_attribute o name)
      end
  | _ => Raise (no_attribute o name)
  end.

(** [d.get(key)]: only a mapping has the method. *)
Definition dict_get (d : PyVal) (key : string) : Outcome Exception PyVal :=
  match d with
  | VDict items => Ok (default VNone (assoc key items))
  | _ => Raise (no_attribute d "get")
  end.

End Value.

Export Value.

(** ** Data model: log records, middleware, requests, the world *)

Inductive Level := DEBUG | INFO | ERROR.

Record LogRecord := mkLog { lr_level : Level; lr_msg : string }.

(** The middleware objects [run] constructs, with their constructor
    arguments.  [max_requests_per_second] is the float [100.0] in the
    source; it is kept as the integer it denotes. *)
Inductive Middleware :=
| LoggingMiddleware
| TagBasedToolFilterMiddleware
| RateLimitingMiddleware (max_requests_per_second : Z) (burst_capacity : Z)
| RetryMiddleware (max_retries : nat) (retry_exceptions : list ExcClass).

(** A call [mcp.run(transport=..., host=..., port=...)], each keyword as
    passed ([None]: left out). *)
Record RunCall := mkRunCall {
  rc_transport : option string;
  rc_host : option string;
  rc_port : option Z
}.

(** The transport a [RunCall] selects: [FastMCP.run] serves stdio when no
    transport is named. *)
Definition transport_of (c : RunCall) : string := default "stdio" (rc_transport c).

(** A tool as the list-tools response carries it. *)
Record Tool := mkTool {
  tool_name : string;
  tool_description : string;
  tool_tags : gset string;
  tool_enabled : bool
}.

(** The request object of [get_application_data_metrics_v2]. *)
Record MetricSpec := mkMetric {
  ms_aggregation : option string;
  ms_metric : option string
}.

Record TimeFrame := mkTimeFrame {
  tf_to : Z;
  tf_windowSize : option Z
}.

Record GetApplicationMetrics := mkRequest {
  includeInternal : bool;
  includeSynthetic : bool;
  metrics : list MetricSpec;
  timeFrame : TimeFrame
}.

(** Everything the program reads or changes outside its local variables. *)
Record World := mkWorld {
  (** records handed to the [logging] module, oldest first *)
  w_log : list LogRecord;
  (** reading of [time.perf_counter()], in clock ticks *)
  w_perf_counter : Z;
  (** [settings.global_tool_categories] *)
  w_global_tool_categories : option (list string);
  (** [settings.global_mcp_mode] *)
  w_global_mcp_mode : string;
  (** the middleware list of the [mcp] object, in registration order *)
  w_middleware : list Middleware;
  (** the calls of [mcp.run] so far *)
  w_runs : list RunCall;
  (** the requests sent to the Instana API so far *)
  w_api_requests : list GetApplicationMetrics;
  (** the messages handed to [ctx.error] of a request context so far *)
  w_ctx_errors : list string
}.

Definition add_log (r : LogRecord) (w : World) : World :=
  mkWorld (w_log w ++ [r]) (w_perf_counter w) (w_global_tool_categories w)
    (w_global_mcp_mode w) (w_middleware w) (w_runs w) (w_api_requests w)
    (w_ctx_errors w).

Definition add_logs (rs : list LogRecord) (w : World) : World :=
  fold_left (fun w r => add_log r w) rs w.

Definition set_global_tool_categories (c : option (list string)) (w : World) : World :=
  mkWorld (w_log w) (w_perf_counter w) c (w_global_mcp_mode w) (w_middleware w)
    (w_runs w) (w_api_requests w) (w_ctx_errors w).

Definition set_global_mcp_mode (m : string) (w : World) : World :=
  mkWorld (w_log w) (w_perf_counter w) (w_global_tool_categories w) m
    (w_middleware w) (w_runs w) (w_api_requests w) (w_ctx_errors w).

Definition push_middleware (m : Middleware) (w : World) : World :=
  mkWorld (w_log w) (w_perf_counter w) (w_global_tool_categories w)
    (w_global_mcp_mode w) (w_middleware w ++ [m]) (w_runs w) (w_api_requests w)
    (w_ctx_errors w).

Definition push_run (c : RunCall) (w : World) : World :=
  mkWorld (w_log w) (w_perf_counter w) (w_global_tool_categories w)
    (w_global_mcp_mode w) (w_middleware w) (w_runs w ++ [c]) (w_api_requests w)
    (w_ctx_errors w).

Definition push_api_request (r : GetApplicationMetrics) (w : World) : World :=
  mkWorld (w_log w) (w_perf_counter w) (w_global_tool_categories w)
    (w_global_mcp_mode w) (w_middleware w) (w_runs w) (w_api_requests w ++ [r])
    (w_ctx_errors w).

Definition push_ctx_error (m : string) (w : World) : World :=
  mkWorld (w_log w) (w_perf_counter w) (w_global_tool_categories w)
    (w_global_mcp_mode w) (w_middleware w) (w_runs w) (w_api_requests w)
    (w_ctx_errors w ++ [m]).

(** The [logging] module: a call hands one record to the handlers and
    returns; a handler that fails reports to stderr and does not raise. *)
Module logger.

Definition debug (msg : string) : M World unit := modify (add_log (mkLog DEBUG msg)).
Definition info (msg : string) : M World unit := modify (add_log (mkLog INFO msg)).
Definition error (msg : string) : M World unit := modify (add_log (mkLog ERROR msg)).
(** [logger.exception(fmt, e)] logs at level ERROR. *)
Definition exception (msg : string) : M World unit := modify (add_log (mkLog ERROR msg)).

End logger.

(** ** [src/mcp_instana/server.py] *)

Module Server.

(** The local variables of [on_message]; [None] is a name not yet bound. *)
Record Frame (R : Type) := mkFrame {
  l_method : option PyVal;
  l_source : option PyVal;
  l_msg : option PyVal;
  l_tool_name : option PyVal;
  l_tool_args : option PyVal;
  l_start : option Z;
  l_result : option R;
  l_elapsed_ms : option Z
}.
Arguments mkFrame {R}.
Arguments l_method {R}.
Arguments l_source {R}.
Arguments l_msg {R}.
Arguments l_tool_name {R}.
Arguments l_tool_args {R}.
Arguments l_start {R}.
Arguments l_result {R}.
Arguments l_elapsed_ms {R}.

Definition frame0 {R} : Frame R := mkFrame None None None None None None None None.

Section Runtime.

(** [json.dumps(obj, default=str)] and [str(obj)]: each returns a text or
    raises an [Exception]. *)
Variable json_dumps : PyVal -> Outcome Exception string.
Variable py_str : PyVal -> Outcome Exception string.
(** [format(v)], as an f-string applies it to a replacement field. *)
Variable py_format : PyVal -> Outcome Exception string.
(** [format(ticks, ".1f")] of an elapsed time turned into milliseconds. *)
Variable format_ms : Z -> string.
(** [repr] of a list of [str], as an f-string prints the categories. *)
Variable repr_strs : list string -> string.
(** What [mcp.run] does once called: it serves until the transport ends. *)
Variable serve : RunCall -> M World unit.

(** Helper to safely stringify arguments without exploding logs. *)
Definition _safe_dump (obj : PyVal) (max_len : Z) : string :=
  let s :=
    match json_dumps obj with
    | Ok s => s
    | Raise _ =>
        match py_str obj with
        | Ok s => s
        | Raise _ => "<unserializable>"
        end
    end in
  if (max_len <? Z.of_nat (String.length s))%Z
  then slice_to max_len s +:+ "...(truncated)"
  else s.

(** The default of the parameter [max_len]. *)
Definition max_len_default : Z := 100.

(** *** [LoggingMiddleware.on_message] *)

Section OnMessage.

Context {R : Type}.

Definition St : Type := Frame R * World.

(** Run a computation on the world; the locals stay. *)
Definition in_world {A} (m : M World A) : M St A :=
  fun s => match m (snd s) with (r, w) => (r, (fst s, w)) end.

Definition local {A} (name : string) (get : Frame R -> option A) : M St A :=
  fun s => read_local name (get (fst s)) s.

Definition assign (f : Frame R -> Frame R) : M St unit :=
  modify (fun s => (f (fst s), snd s)).

Definition set_method (v : PyVal) (f : Frame R) : Frame R :=
  mkFrame (Some v) (l_source f) (l_msg f) (l_tool_name f) (l_tool_args f)
    (l_start f) (l_result f) (l_elapsed_ms f).
Definition set_source (v : PyVal) (f : Frame R) : Frame R :=
  mkFrame (l_method f) (Some v) (l_msg f) (l_tool_name f) (l_tool_args f)
    (l_start f) (l_result f) (l_elapsed_ms f).
Definition set_msg (v : PyVal) (f : Frame R) : Frame R :=
  mkFrame (l_method f) (l_source f) (Some v) (l_tool_name f) (l_tool_args f)
    (l_start f) (l_result f) (l_elapsed_ms f).
Definition set_tool_name (v : PyVal) (f : Frame R) : Frame R :=
  mkFrame (l_method f) (l_source f) (l_msg f) (Some v) (l_tool_args f)
    (l_start f) (l_result f) (l_elapsed_ms f).
Definition set_tool_args (v : PyVal) (f : Frame R) : Frame R :=
  mkFrame (l_method f) (l_source f) (l_msg f) (l_tool_name f) (Some v)
    (l_start f) (l_result f) (l_elapsed_ms f).
Definition set_start (t : Z) (f : Frame R) : Frame R :=
  mkFrame (l_method f) (l_source f) (l_msg f) (l_tool_name f) (l_tool_args f)
    (Some t) (l_result f) (l_elapsed_ms f).
Definition set_result (r : R) (f : Frame R) : Frame R :=
  mkFrame (l_method f) (l_source f) (l_msg f) (l_tool_name f) (l_tool_args f)
    (l_start f) (Some r) (l_elapsed_ms f).
Definition set_elapsed_ms (t : Z) (f : Frame R) : Frame R :=
  mkFrame (l_method f) (l_source f) (l_msg f) (l_tool_name f) (l_tool_args f)
    (l_start f) (l_result f) (Some t).

(** [time.perf_counter()]. *)
Definition perf_counter : M St Z := in_world (gets w_perf_counter).

(** The body of the first [try]: inspect the inbound message and log the
    beginning. *)
Definition log_inbound (context : PyVal) : M St unit :=
  method <-
    (let m := getattr_default context "method" in
     if truthy m then ret m
     else
       message <- call (getattr context "message") ;;
       call (dict_get (py_or message (VDict [])) "method")) ;;
  assign (set_method method) ;;
  assign (set_source (getattr_default context "source")) ;;
  assign (set_msg (py_or (getattr_default context "message") (VDict []))) ;;
  assign (set_tool_name VNone) ;;
  assign (set_tool_args VNone) ;;
  (if eq_str method "tools/call" then
     msg <- local "msg" l_msg ;;
     name <- call (getattr msg "name") ;;
     assign (set_tool_name name) ;;
     msg <- local "msg" l_msg ;;
     arguments <- call (getattr msg "arguments") ;;
     assign (set_tool_args arguments)
   else ret tt) ;;
  tool_name <- local "tool_name" l_tool_name ;;
  if truthy tool_name then
    s_tool <- call (py_format tool_name) ;;
    s_method <- call (py_format method) ;;
    source <- local "source" l_source ;;
    s_source <- call (py_format source) ;;
    in_world (logger.info ("Invoking tool: " +:+ s_tool +:+ ", by method "
                             +:+ s_method +:+ ") from " +:+ s_source)) ;;
    tool_args <- local "tool_args" l_tool_args ;;
    if negb (is_none tool_args) then
      s_tool <- call (py_format tool_name) ;;
      in_world (logger.debug ("Tool name: '" +:+ s_tool +:+ "'; args: "
                                +:+ _safe_dump tool_args max_len_default))
    else ret tt
  else
    s_method <- call (py_format method) ;;
    source <- local "source" l_source ;;
    s_source <- call (py_format source) ;;
    in_world (logger.info ("Processing " +:+ s_method +:+ " from " +:+ s_source)).

(** The body of the last [try]: log the completion. *)
Definition log_completed : M St unit :=
  tool_name <- local "tool_name" l_tool_name ;;
  if truthy tool_name then
    s_tool <- call (py_format tool_name) ;;
    elapsed_ms <- local "elapsed_ms" l_elapsed_ms ;;
    in_world (logger.info ("Completed tool '" +:+ s_tool +:+ "' in "
                             +:+ format_ms elapsed_ms +:+ "ms"))
  else
    method <- local "method" l_method ;;
    s_method <- call (py_format method) ;;
    elapsed_ms <- local "elapsed_ms" l_elapsed_ms ;;
    in_world (logger.info ("Completed " +:+ s_method +:+ " in "
                             +:+ format_ms elapsed_ms +:+ "ms")).

Definition on_message_body (context : PyVal) (call_next : PyVal -> M World R) : M St R :=
  try_except (log_inbound context)
    (fun e =>
       (* Logging should never break the pipeline *)
       in_world (logger.exception
                   ("LoggingMiddleware failed to inspect the inbound message: "
                      +:+ exc_text e))) ;;
  (* call the next middleware / handler and measure duration *)
  start <- perf_counter ;;
  assign (set_start start) ;;
  try_finally
    (result <- in_world (call_next context) ;;
     assign (set_result result))
    (now <- perf_counter ;;
     start <- local "start" l_start ;;
     assign (set_elapsed_ms (now - start))) ;;
  (* Post-processing logs *)
  try_except log_completed
    (fun _ => (* swallow any logging errors *) ret tt) ;;
  local "result" l_result.

(** The method as called: a fresh frame of locals, dropped on exit. *)
Definition on_message (context : PyVal) (call_next : PyVal -> M World R) : M World R :=
  fun w =>
    match on_message_body context call_next (frame0, w) with
    | (r, (_, w')) => (r, w')
    end.

End OnMessage.

(** *** [TagBasedToolFilterMiddleware.on_list_tools] *)

(** [not settings.global_tool_categories]: [None] and the empty list are
    false values. *)
Definition no_categories (c : option (list string)) : bool :=
  match c with
  | None => true
  | Some [] => true
  | Some (_ :: _) => false
  end.

(** [bool(set(categories) & set(tool.tags))]. *)
Definition tags_intersect (categories : list string) (tool : Tool) : bool :=
  negb (bool_decide ((list_to_set categories : gset string) ∩ tool_tags tool = ∅)).

(** The [for] loop: [filtered.append(tool)] for each tool that passes. *)
Definition filter_loop (categories : list string) (result : list Tool) : list Tool :=
  fold_left
    (fun filtered tool =>
       if tags_intersect categories tool then filtered ++ [tool] else filtered)
    result [].

Definition on_list_tools (context : PyVal) (call_next : PyVal -> M World (list Tool))
    : M World (list Tool) :=
  result <- call_next context ;;
  categories <- gets w_global_tool_categories ;;
  if no_categories categories then
    logger.info "List all tools without filtering" ;;
    ret result
  else
    let filtered := filter_loop (default [] categories) result in
    logger.info ("List tools filtered by categories: "
                   +:+ repr_strs (default [] categories) +:+ ", total "
                   +:+ str_of_Z (Z.of_nat (length filtered)) +:+ " tools") ;;
    ret filtered.

(** *** [run] *)

(** [mcp.add_middleware(m)]. *)
Definition add_middleware (m : Middleware) : M World unit := modify (push_middleware m).

(** [mcp.run(...)]: the call is recorded, then the framework serves. *)
Definition mcp_run (c : RunCall) : M World unit :=
  modify (push_run c) ;; serve c.

(** Configure and run the MCP server. *)
Definition run (mode : option string) (port : Z) : M World unit :=
  logger.info "Adding LoggingMiddleware" ;;
  add_middleware LoggingMiddleware ;;
  logger.info "Adding TagBasedToolFilterMiddleware" ;;
  add_middleware TagBasedToolFilterMiddleware ;;
  logger.info "Adding RateLimitingMiddleware" ;;
  add_middleware (RateLimitingMiddleware 100 20) ;;
  logger.info "Adding RetryMiddleware" ;;
  add_middleware (RetryMiddleware 3 [ConnectionError; TimeoutError]) ;;
  if bool_decide (mode = Some "streamable-http") then
    logger.info ("Starting MCP server in streamable-http mode on port "
                   +:+ str_of_Z port) ;;
    mcp_run (mkRunCall (Some "http") (Some "0.0.0.0") (Some port))
  else
    logger.info "Starting MCP server in stdio mode" ;;
    mcp_run (mkRunCall None None None).

End Runtime.

End Server.

(** ** The retry stage *)

Module RetryStage.

Section Retry.

Context {D A : Type}.

(** The downstream call, on a state of its own. *)
Variable call_next : D -> Outcome BaseException A * D.
(** The base delay and the factor of the exponential backoff. *)
Variable base_delay : Z.
Variable backoff_multiplier : Z.

(** What the stage has done: the outcome of every downstream call and the
    delays slept between them, both oldest first. *)
Record State := mkState {
  rs_outcomes : list (Outcome BaseException A);
  rs_sleeps : list Z;
  rs_down : D
}.

Definition calculate_delay (attempt : nat) : Z :=
  (base_delay * backoff_multiplier ^ Z.of_nat attempt)%Z.

Definition should_retry (retry_exceptions : list ExcClass) (r : Outcome BaseException A) : bool :=
  match r with
  | Raise (Exc e) => isinstance e retry_exceptions
  | _ => false
  end.

(** Modelled from the spec: the retry stage is fastmcp's [RetryMiddleware],
    a dependency whose code is not in the repository; [run] only constructs
    it.  Following section 4.3 of the spec, the stage calls downstream; on
    a failure with one of the retry exceptions it sleeps the backoff delay
    and calls again, at most [max_retries] more times; any other outcome,
    and the outcome of the last attempt, is surfaced as it is.
    [retries_left] counts the retries still allowed, [attempt] the calls
    already made. *)
Fixpoint attempt_loop (retry_exceptions : list ExcClass) (retries_left attempt : nat)
    (st : State) : Outcome BaseException A * State :=
  let (r, d) := call_next (rs_down st) in
  let st' := mkState (rs_outcomes st ++ [r]) (rs_sleeps st) d in
  match retries_left with
  | S k =>
      if should_retry retry_exceptions r then
        attempt_loop retry_exceptions k (S attempt)
          (mkState (rs_outcomes st') (rs_sleeps st' ++ [calculate_delay attempt])
             (rs_down st'))
      else (r, st')
  | O => (r, st')
  end.

(** The stage a middleware object stands for; only a [RetryMiddleware]
    retries. *)
Definition on_request (m : Middleware) (d : D) : Outcome BaseException A * State :=
  match m with
  | RetryMiddleware max_retries retry_exceptions =>
      attempt_loop retry_exceptions max_retries 0 (mkState [] [] d)
  | _ =>
      let (r, d') := call_next d in (r, mkState [r] [] d')
  end.

End Retry.

Arguments mkState {D A}.
Arguments rs_outcomes {D A}.
Arguments rs_sleeps {D A}.
Arguments rs_down {D A}.

End RetryStage.

(** ** [src/mcp_instana/tools/trending/top_performance.py] *)

Module TopPerformance.

(** The request context fastmcp hands to a tool. *)
Record Context := mkContext { request_id : string }.

(** An argument of a call: left out, or passed (possibly as [None]). *)
Inductive Arg (A : Type) :=
| Omitted
| Passed (a : A).
Arguments Omitted {A}.
Arguments Passed {A} a.

Definition or_default {A} (d : A) (a : Arg A) : A :=
  match a with
  | Omitted => d
  | Passed v => v
  end.

Record CallArgs := mkCallArgs {
  a_metric : Arg (option string);
  a_to_time_ms : Arg (option Z);
  a_duration_ms : Arg (option Z);
  a_top_n : Arg (option Z);
  a_aggregation : Arg (option string);
  a_order : Arg (option string);
  a_ctx : Arg (option Context)
}.

Section Runtime.

(** [int(datetime.now(timezone.utc).timestamp() * 1000)]: the current time
    in milliseconds. *)
Variable now_ms : Z.
(** Entering [instana_api_client_instance()] (of [mcp_instana.utils]). *)
Variable client_enter : Outcome Exception unit.
(** The response type of the Instana client and its two operations. *)
Variable Response : Type.
Variable get_application_data_metrics_v2 :
  GetApplicationMetrics -> Outcome Exception Response.
Variable to_dict : Response -> Outcome Exception PyVal.
(** fastmcp's [Context.error], awaited: the notification to the client
    goes through, or the call raises. *)
Variable Context_error : Context -> string -> Outcome BaseException unit.

(** [inspect.currentframe().f_code.co_name]. *)
Definition co_name : string := "list_top_applications_by_performance".

(** [await ctx.error(msg)]: on a context, the message is handed to
    [Context.error], whose outcome is the outcome of the [await]; on
    [None] the attribute lookup raises. *)
Definition ctx_error (ctx : option Context) (msg : string) : M World unit :=
  match ctx with
  | Some c => modify (push_ctx_error msg) ;; await (Context_error c msg)
  | None => call (Raise (no_attribute VNone "error"))
  end.

(** List top n applications by performance measured by available golden
    signals.  The scoped API client is released on every exit, which does
    not change the outcome. *)
Definition list_top_applications_by_performance
    (metric : option string) (to_time_ms : option Z) (duration_ms : option Z)
    (top_n : option Z) (aggregation : option string) (order : option string)
    (ctx : option Context) : M World PyVal :=
  (* if to_time_ms is None: to_time = int(now.timestamp() * 1000) *)
  let to_time : option Z :=
    match to_time_ms with
    | None => Some now_ms
    | Some _ => None
    end in
  call client_enter ;;
  to <- read_local "to_time" to_time ;;
  let get_application_metrics :=
    mkRequest true true [mkMetric aggregation metric] (mkTimeFrame to duration_ms) in
  try_except
    (logger.debug "Calling Instana API get_application_data_metrics_v2" ;;
     modify (push_api_request get_application_metrics) ;;
     result <- call (get_application_data_metrics_v2 get_application_metrics) ;;
     call (to_dict result))
    (fun e =>
       (* Log the error *)
       logger.error ("Error calling tool " +:+ co_name +:+ ": " +:+ exc_text e) ;;
       (* Send error response via MCP context if available *)
       ctx_error ctx ("Error calling tool " +:+ co_name +:+ ": " +:+ exc_text e) ;;
       (* Raise ToolError as the MCP response *)
       raise_exc ToolError
         ("Instana API call [get_application_data_metrics_v2] error: " +:+ exc_text e)).

(** A call of the tool: the declared default stands for each argument the
    caller leaves out. *)
Definition invoke (a : CallArgs) : M World PyVal :=
  list_top_applications_by_performance
    (or_default (Some "latency") (a_metric a))
    (or_default None (a_to_time_ms a))
    (or_default (Some (60 * 60 * 1000)%Z) (a_duration_ms a))
    (or_default (Some 10%Z) (a_top_n a))
    (or_default (Some "MEAN") (a_aggregation a))
    (or_default (Some "desc") (a_order a))
    (or_default None (a_ctx a)).

End Runtime.

End TopPerformance.

(** ** [src/mcp_instana/main.py] *)

Module Main.

(** The namespace [parser.parse_args()] returns. *)
Record Namespace := mkNamespace {
  ns_help : bool;
  ns_transport : option string;
  ns_tools : option string;
  ns_port : Z
}.

(** An action of the parser: what [add_argument] was given. *)
Record Action := mkAction {
  option_strings : list string;
  act_metavar : option string;
  act_help : option string
}.

(** [parser._actions] after the four [add_argument] calls. *)
Definition parser_actions : list Action :=
  [ mkAction ["-h"; "--help"] None (Some "Show this help message and exit");
    mkAction ["--transport"] (Some "<mode>")
      (Some "Set the transport mode: streamable-http, stdio. Defaults to stdio if not specified.");
    mkAction ["--tools"] (Some "<categoriy1,category2,...>")
      (Some "Comma-separated list of tool categories to enable: infra,app,events,automation,website. If not provided, all tools are enabled.");
    mkAction ["--port"] None
      (Some "Port to listen on (default: 8080, can be overridden with PORT env var)") ].

Definition help_args : list string := ["-h"; "--h"; "--help"; "-help"].

Definition is_help_arg (arg : string) : bool := bool_decide (arg ∈ help_args).

(** [os.getenv(name)] and [os.getenv(name, default)]. *)
Definition getenv (env : gmap string string) (name : string) : option string :=
  env !! name.

Definition getenv_or (env : gmap string string) (name dflt : string) : string :=
  default dflt (env !! name).

(** Validate that Instana credentials are provided for stdio mode. *)
(** [s or dflt] for an optional [str]: [None] and the empty text are false
    values. *)
Definition str_or (s : option string) (dflt : string) : string :=
  match s with
  | Some t => if bool_decide (t = "") then dflt else t
  | None => dflt
  end.

Definition validate_credentials (env : gmap string string) : bool :=
  let token := str_or (getenv env "INSTANA_API_TOKEN") "" in
  let base_url := str_or (getenv env "INSTANA_BASE_URL") "" in
  negb (bool_decide (token = "") || bool_decide (base_url = "")).

Section Runtime.

(** [int(s)] on a [str]: the integer, or [ValueError]. *)
Variable py_int : string -> Outcome Exception Z.
(** [parser.parse_args()] on [sys.argv[1:]], given the default of
    [--port]: the namespace, or what argparse raises ([SystemExit(2)] on a
    usage error). *)
Variable parse_args : list string -> Z -> Outcome BaseException Namespace.
Variable repr_strs : list string -> string.
Variable serve : RunCall -> M World unit.

(** The body of the help loop for one action. *)
Definition show_action (action : Action) : M World unit :=
  if existsb (startswith "--") (option_strings action)
     && negb (bool_decide (default "" (act_help action) = ""))
  then
    (* Find the first long option *)
    let long_opt := List.find (startswith "--") (option_strings action) in
    let metavar := default "" (act_metavar action) in
    let opt_str := strip (default "None" long_opt +:+ " " +:+ metavar) in
    logger.info (ljust 24 opt_str +:+ " " +:+ default "" (act_help action))
  else ret tt.

Fixpoint for_each {A} (f : A -> M World unit) (l : list A) : M World unit :=
  match l with
  | [] => ret tt
  | x :: rest => f x ;; for_each f rest
  end.

(** The statements of the inner [try] before [sys.exit(0)]. *)
Definition display_help : M World unit :=
  logger.info "Available options:" ;;
  for_each show_action parser_actions.

(** Show help and exit: [display] stands for the statements that print;
    whatever [Exception] they raise, the exit status is 0. *)
Definition show_help_and_exit {A} (display : M World unit) : M World A :=
  try_except
    (display ;; sys_exit 0)
    (fun e =>
       logger.error ("Error displaying help: " +:+ exc_text e) ;;
       sys_exit 0 (* Still exit with 0 for help *)).

(** The body of the outer [try], with the printing of the help left open. *)
Definition main_body (display : M World unit) (argv : list string)
    (env : gmap string string) : M World unit :=
  (* parser.add_argument("--port", type=int, default=int(os.getenv("PORT", "8080"))) *)
  port_default <- call (py_int (getenv_or env "PORT" "8080")) ;;
  (* Check for help arguments before parsing *)
  (if (1 <? length argv) && existsb is_help_arg (tail argv) then
     (* Check if help is combined with other arguments *)
     let other_args := List.filter (fun arg => negb (is_help_arg arg)) (tail argv) in
     (if negb (bool_decide (other_args = [])) then
        logger.error "Argument -h/--h/--help/-help: not allowed with other arguments" ;;
        sys_exit 2
      else ret tt) ;;
     show_help_and_exit display
   else ret tt) ;;
  args <- (fun w => (parse_args (tail argv) port_default, w)) ;;
  (* Retrieve the tool categories if specified *)
  let categories :=
    match ns_tools args with
    | Some tools =>
        if bool_decide (tools = "") then None else Some (split_on "," tools)
    | None => None
    end in
  modify (set_global_tool_categories categories) ;;
  logger.info ("Enabled tool categories: "
                 +:+ (if Server.no_categories categories then "all"
                      else repr_strs (default [] categories))) ;;
  (* In stdio mode, the credentials must be provided via environment variables *)
  modify (set_global_mcp_mode (str_or (ns_transport args) "stdio")) ;;
  (if bool_decide (ns_transport args = Some "stdio")
      || bool_decide (ns_transport args = None) then
     if negb (validate_credentials env) then
       logger.error "Error: Instana credentials are required for stdio mode but not provided. Please set INSTANA_API_TOKEN and INSTANA_BASE_URL environment variables." ;;
       sys_exit 1
     else ret tt
   else ret tt) ;;
  (* Start the MCP server *)
  try_except
    (Server.run serve (ns_transport args) (ns_port args))
    (fun e =>
       logger.error ("Failed to create MCP server: " +:+ exc_text e) ;;
       sys_exit 1).

Definition main_with (display : M World unit) (argv : list string)
    (env : gmap string string) : M World unit :=
  try_except_interrupt
    (main_body display argv env)
    (logger.info "Server stopped by user" ;; sys_exit 0)
    (fun e => logger.error ("Server error: " +:+ exc_text e) ;; sys_exit 1).

(** Main entry point for Instana MCP server: [argv] is [sys.argv], [env]
    the process environment. *)
Definition main (argv : list string) (env : gmap string string) : M World unit :=
  main_with display_help argv env.

(** The [if __name__ == "__main__"] block. *)
Definition entry_point (argv : list string) (env : gmap string string) : M World unit :=
  try_except (main argv env)
    (fun _ => logger.error "Unhandled exception in main" ;; sys_exit 1).

End Runtime.

(** The exit status of the process: the code of a [SystemExit], 0 when the
    program runs to its end. *)
Definition exit_status {A} (r : Outcome BaseException A) : option Z :=
  match r with
  | Ok _ => Some 0%Z
  | Raise (SystemExit code) => Some code
  | Raise _ => None
  end.

End Main.

(** ** A sample runtime

    Concrete runtime functions on which the model runs: they agree with
    Python on the inputs the examples below use (plain decimal literals,
    exactly spelled options, texts that need no escaping). *)

Module Sample.

Definition quote : string := String (ascii_of_nat 34) EmptyString.

(** [int(s)] on an optionally signed decimal literal. *)
Definition py_int (s : string) : Outcome Exception Z :=
  match DecimalString.NilZero.int_of_string s with
  | Some d => Ok (Z.of_int d)
  | None =>
      Raise (mkExc ValueError ("invalid literal for int() with base 10: '" +:+ s +:+ "'"))
  end.

Definition join (sep : string) (l : list string) : string := String.concat sep l.

Definition repr_strs (l : list string) : string :=
  "[" +:+ join ", " (map (fun s => "'" +:+ s +:+ "'") l) +:+ "]".

Definition usage_error {A} : Outcome BaseException A := Raise (SystemExit 2).

(** argparse on [--transport v], [--tools v] and [--port v], each spelled
    in full and followed by its value; anything else is a usage error. *)
Fixpoint parse_into (ns : Main.Namespace) (args : list string)
    : Outcome BaseException Main.Namespace :=
  match args with
  | [] => Ok ns
  | opt :: v :: rest =>
      if decide (opt = "--transport") then
        if bool_decide (v ∈ ["streamable-http"; "stdio"]) then
          parse_into (Main.mkNamespace (Main.ns_help ns) (Some v) (Main.ns_tools ns)
                        (Main.ns_port ns)) rest
        else usage_error
      else if decide (opt = "--tools") then
        parse_into (Main.mkNamespace (Main.ns_help ns) (Main.ns_transport ns) (Some v)
                      (Main.ns_port ns)) rest
      else if decide (opt = "--port") then
        match py_int v with
        | Ok p =>
            parse_into (Main.mkNamespace (Main.ns_help ns) (Main.ns_transport ns)
                          (Main.ns_tools ns) p) rest
        | Raise _ => usage_error
        end
      else usage_error
  | _ => usage_error
  end.

Definition parse_args (args : list string) (port_default : Z)
    : Outcome BaseException Main.Namespace :=
  parse_into (Main.mkNamespace false None None port_default) args.

(** A server whose transport ends at once. *)
Definition serve (_ : RunCall) : M World unit := ret tt.

(** Two classes stand for the values that do not serialise: an instance
    of [Opaque] has a [__str__] that raises, so that [json.dumps], which
    falls back on [str], raises too; an instance of [Cyclic] is a
    container holding itself, which [json.dumps] refuses and [str] prints.
    The containers of the examples hold no instances. *)
Definition str_of_instance (cls : string) : Outcome Exception string :=
  if bool_decide (cls = "Opaque") then
    Raise (mkExc TypeError "__str__ returned non-string (type NoneType)")
  else if bool_decide (cls = "Cyclic") then Ok "[[...]]"
  else Ok ("<" +:+ cls +:+ " object>").

Definition text_of (r : Outcome Exception string) : string :=
  match r with
  | Ok s => s
  | Raise _ => ""
  end.

(** JSON text of a value whose strings need no escaping. *)
Fixpoint json (v : PyVal) : string :=
  match v with
  | VNone => "null"
  | VBool true => "true"
  | VBool false => "false"
  | VInt z => str_of_Z z
  | VStr s => quote +:+ s +:+ quote
  | VList items => "[" +:+ join ", " (map json items) +:+ "]"
  | VDict items =>
      "{" +:+ join ", " (map (fun kv => quote +:+ fst kv +:+ quote +:+ ": " +:+ json (snd kv)) items)
        +:+ "}"
  | VObj cls _ => quote +:+ text_of (str_of_instance cls) +:+ quote
  end.

(** [repr] of a value whose strings need no escaping. *)
Fixpoint repr (v : PyVal) : string :=
  match v with
  | VNone => "None"
  | VBool true => "True"
  | VBool false => "False"
  | VInt z => str_of_Z z
  | VStr s => "'" +:+ s +:+ "'"
  | VList items => "[" +:+ join ", " (map repr items) +:+ "]"
  | VDict items =>
      "{" +:+ join ", " (map (fun kv => "'" +:+ fst kv +:+ "': " +:+ repr (snd kv)) items)
        +:+ "}"
  | VObj cls _ => text_of (str_of_instance cls)
  end.

Definition json_dumps (v : PyVal) : Outcome Exception string :=
  match v with
  | VObj cls _ =>
      if bool_decide (cls = "Cyclic") then
        Raise (mkExc ValueError "Circular reference detected")
      else
        match str_of_instance cls with
        | Ok _ => Ok (json v)
        | Raise e => Raise e
        end
  | _ => Ok (json v)
  end.

Definition py_str (v : PyVal) : Outcome Exception string :=
  match v with
  | VObj cls _ => str_of_instance cls
  | VStr s => Ok s
  | _ => Ok (repr v)
  end.

Definition py_format (v : PyVal) : Outcome Exception string := py_str v.

Definition format_ms (ticks : Z) : string := str_of_Z ticks +:+ ".0".

(** A world before [main] has run: nothing logged, an [mcp] object
    without middleware, no call made. *)
Definition world0 : World := mkWorld [] 0 None "" [] [] [] [].

(** A process environment without variables. *)
Definition empty_env : gmap string string := ∅.

(** [main] and [on_message] on the sample runtime. *)
Definition sample_main : list string -> gmap string string -> M World unit :=
  Main.main py_int parse_args repr_strs serve.

Definition sample_on_message : PyVal -> (PyVal -> M World PyVal) -> M World PyVal :=
  Server.on_message json_dumps py_str py_format format_ms.

(** An argument mapping whose JSON text has 250 characters. *)
Definition long_arguments : PyVal :=
  VDict [("k", VStr (string_of_list_ascii (replicate 241 "v"%char)))].

(** The enabled demo tool of [src/tools/log/demo_tool.py] and the tool of
    [top_performance.py], as a list-tools response. *)
Definition demo_tools : list Tool :=
  [ mkTool "add_two_numbers" "add two numbers and return the value." {[ "infra" ]} true;
    mkTool "list_top_applications_by_performance"
      "list top n applications measured by specific metric performance: latency, traffic, or error_rate."
      {[ "trending"; "tool" ]} true ].

(** A tool call as fastmcp hands it to the middleware. *)
Definition tool_call_context : PyVal :=
  VObj "MiddlewareContext"
    [ ("method", VStr "tools/call");
      ("source", VStr "client");
      ("message",
       VObj "CallToolRequestParams"
         [ ("name", VStr "list_top_applications_by_performance");
           ("arguments", VDict [("top_n", VInt 3)]) ]) ].

(** A context without a method whose message is no mapping: inspecting it
    raises [AttributeError] before any local is bound, and the last [try]
    then meets the unbound [tool_name]. *)
Definition odd_context : PyVal :=
  VObj "MiddlewareContext"
    [ ("method", VNone);
      ("message", VObj "CallToolRequestParams" [("name", VStr "t")]) ].

(** An Instana client whose call is refused by the network. *)
Definition api_refused (_ : GetApplicationMetrics) : Outcome Exception PyVal :=
  Raise (mkExc ConnectionRefusedError "[Errno 111] Connection refused").

(** An Instana client that answers with an empty result. *)
Definition api_empty (_ : GetApplicationMetrics) : Outcome Exception PyVal :=
  Ok (VDict [("items", VList [])]).

(** A request context whose notifications go through. *)
Definition ctx_delivers (_ : TopPerformance.Context) (_ : string)
    : Outcome BaseException unit :=
  Ok tt.

(** A request context whose client has gone away: the notification fails
    on the closed connection. *)
Definition ctx_broken (_ : TopPerformance.Context) (_ : string)
    : Outcome BaseException unit :=
  Raise (Exc (mkExc BrokenPipeError "[Errno 32] Broken pipe")).

(** The tool with a client that answers, at time 1700000000000. *)
Definition tool_answering : TopPerformance.CallArgs -> M World PyVal :=
  TopPerformance.invoke 1700000000000 (Ok tt) PyVal api_empty Ok ctx_delivers.

(** The tool with a client that is refused. *)
Definition tool_refused : TopPerformance.CallArgs -> M World PyVal :=
  TopPerformance.invoke 1700000000000 (Ok tt) PyVal api_refused Ok ctx_delivers.

(** The tool with a client that is refused, when the notification of the
    failure fails too. *)
Definition tool_refused_unreported : TopPerformance.CallArgs -> M World PyVal :=
  TopPerformance.invoke 1700000000000 (Ok tt) PyVal api_refused Ok ctx_broken.

Definition no_arguments : TopPerformance.CallArgs :=
  TopPerformance.mkCallArgs TopPerformance.Omitted TopPerformance.Omitted
    TopPerformance.Omitted TopPerformance.Omitted TopPerformance.Omitted
    TopPerformance.Omitted TopPerformance.Omitted.

Definition with_to_time (t : Z) : TopPerformance.CallArgs :=
  TopPerformance.mkCallArgs TopPerformance.Omitted (TopPerformance.Passed (Some t))
    TopPerformance.Omitted TopPerformance.Omitted TopPerformance.Omitted
    TopPerformance.Omitted TopPerformance.Omitted.

Definition with_ctx (c : TopPerformance.Context) : TopPerformance.CallArgs :=
  TopPerformance.mkCallArgs TopPerformance.Omitted TopPerformance.Omitted
    TopPerformance.Omitted TopPerformance.Omitted TopPerformance.Omitted
    TopPerformance.Omitted (TopPerformance.Passed (Some c)).

(** A downstream handler that counts its calls and always fails with a
    refused connection. *)
Definition always_refused (calls : nat) : Outcome BaseException PyVal * nat :=
  (Raise (Exc (mkExc ConnectionRefusedError "[Errno 111] Connection refused")), S calls).

(** A downstream handler that fails with an error of another kind. *)
Definition always_value_error (calls : nat) : Outcome BaseException PyVal * nat :=
  (Raise (Exc (mkExc ValueError "bad metric")), S calls).

End Sample.

(** * Specification

    The notions the statements below are written in. *)

(** What the log shows for a text [s]: [s] itself up to 100 characters,
    else its first 100 characters and the marker, 114 characters in all. *)
Definition logged_for (s logged : string) : Prop :=
  (String.length s <= 100 -> logged = s) /\
  (100 < String.length s ->
     logged = substring 0 100 s +:+ "...(truncated)" /\
     (exists rest, s = substring 0 100 s +:+ rest /\
                   String.length (substring 0 100 s) = 100) /\
     String.length logged = 100 + String.length "...(truncated)" /\
     String.length "...(truncated)" = 14).

(** A tool has a category of the configured set: its tag set and the
    category set have a common element. *)
Definition has_category (categories : list string) (tool : Tool) : Prop :=
  exists c, c ∈ categories /\ c ∈ tool_tags tool.

#[global] Instance has_category_dec categories tool :
  Decision (has_category categories tool).
Proof.
  refine (cast_if (decide (Exists (fun c => c ∈ tool_tags tool) categories)));
    unfold has_category; rewrite Exists_exists in *; naive_solver.
Defined.

(** The four stages [run] registers, in registration order. *)
Definition pipeline : list Middleware :=
  [ LoggingMiddleware;
    TagBasedToolFilterMiddleware;
    RateLimitingMiddleware 100 20;
    RetryMiddleware 3 [ConnectionError; TimeoutError] ].

(** The call of [mcp.run] for a transport mode. *)
Definition run_call (mode : option string) (port : Z) : RunCall :=
  if bool_decide (mode = Some "streamable-http")
  then mkRunCall (Some "http") (Some "0.0.0.0") (Some port)
  else mkRunCall None None None.

(** The world in which [mcp.run] is entered. *)
Definition world_at_serve (mode : option string) (port : Z) (w : World) : World :=
  let logs :=
    [ mkLog INFO "Adding LoggingMiddleware";
      mkLog INFO "Adding TagBasedToolFilterMiddleware";
      mkLog INFO "Adding RateLimitingMiddleware";
      mkLog INFO "Adding RetryMiddleware";
      mkLog INFO
        (if bool_decide (mode = Some "streamable-http")
         then "Starting MCP server in streamable-http mode on port " +:+ str_of_Z port
         else "Starting MCP server in stdio mode") ] in
  mkWorld (w_log w ++ logs) (w_perf_counter w) (w_global_tool_categories w)
    (w_global_mcp_mode w) (w_middleware w ++ pipeline)
    (w_runs w ++ [run_call mode port]) (w_api_requests w) (w_ctx_errors w).

(** The middleware on the [mcp] object once [run] has been through, with a
    transport that ends at once. *)
Definition registered_by_run (mode : option string) (port : Z) (w : World)
    : list Middleware :=
  w_middleware (snd (Server.run Sample.serve mode port w)).

(** The categories [main] stores for a parsed command line. *)
Definition categories_of (args : Main.Namespace) : option (list string) :=
  match Main.ns_tools args with
  | Some tools => if bool_decide (tools = "") then None else Some (split_on "," tools)
  | None => None
  end.

(** The world once the command line is parsed and the settings stored. *)
Definition world_after_parse (repr_strs : list string -> string)
    (args : Main.Namespace) (w : World) : World :=
  mkWorld
    (w_log w ++
       [mkLog INFO ("Enabled tool categories: "
                      +:+ (if Server.no_categories (categories_of args) then "all"
                           else repr_strs (default [] (categories_of args))))])
    (w_perf_counter w) (categories_of args)
    (Main.str_or (Main.ns_transport args) "stdio")
    (w_middleware w) (w_runs w) (w_api_requests w) (w_ctx_errors w).

(** [main]'s handlers around a running server. *)
Definition under_handlers (m : M World unit) : M World unit :=
  try_except_interrupt
    (try_except m
       (fun e => logger.error ("Failed to create MCP server: " +:+ exc_text e) ;; sys_exit 1))
    (logger.info "Server stopped by user" ;; sys_exit 0)
    (fun e => logger.error ("Server error: " +:+ exc_text e) ;; sys_exit 1).

Definition credentials_error : LogRecord :=
  mkLog ERROR "Error: Instana credentials are required for stdio mode but not provided. Please set INSTANA_API_TOKEN and INSTANA_BASE_URL environment variables.".

Definition stdio_mode (args : Main.Namespace) : bool :=
  bool_decide (Main.ns_transport args = Some "stdio")
  || bool_decide (Main.ns_transport args = None).

(** A command line argparse accepts, whatever the default of [--port],
    and that names the transport [stdio] or none. *)
Definition stdio_command_line
    (parse_args : list string -> Z -> Outcome BaseException Main.Namespace)
    (argv : list string) : Prop :=
  forall port_default,
    exists args,
      parse_args (tail argv) port_default = Ok args /\
      (Main.ns_transport args = Some "stdio" \/ Main.ns_transport args = None).

(** The records of the help display. *)
Definition help_records : list LogRecord :=
  [ mkLog INFO "Available options:";
    mkLog INFO "--help                   Show this help message and exit";
    mkLog INFO "--transport <mode>       Set the transport mode: streamable-http, stdio. Defaults to stdio if not specified.";
    mkLog INFO "--tools <categoriy1,category2,...> Comma-separated list of tool categories to enable: infra,app,events,automation,website. If not provided, all tools are enabled.";
    mkLog INFO "--port                   Port to listen on (default: 8080, can be overridden with PORT env var)" ].

(** A computation that returns or raises an [Exception], whatever the
    world it starts in. *)
Definition raises_only_exceptions {A} (m : M World A) : Prop :=
  forall w, match fst (m w) with
            | Ok _ | Raise (Exc _) => True
            | Raise _ => False
            end.

(** An outcome that is a return or an [Exception]: what [except Exception]
    handles. *)
Definition handled {A} (r : Outcome BaseException A) : Prop :=
  match r with
  | Ok _ | Raise (Exc _) => True
  | Raise _ => False
  end.

(** A step of the logging code: it may rebind locals and add log records,
    and it returns or raises an [Exception]. *)
Definition logs_only {R A} (m : M (@Server.St R) A) : Prop :=
  forall f w, exists f' logs r, m (f, w) = (r, (f', add_logs logs w)) /\ handled r.

(** The [UnboundLocalError] of reading [to_time]. *)
Definition unbound_to_time : Exception :=
  mkExc UnboundLocalError
    "cannot access local variable 'to_time' where it is not associated with a value".

(** The request of a call at time [now_ms] that leaves [to_time_ms] out. *)
Definition request_now (now_ms : Z) (metric aggregation : option string)
    (duration_ms : option Z) : GetApplicationMetrics :=
  mkRequest true true [mkMetric aggregation metric] (mkTimeFrame now_ms duration_ms).

(** A downstream failure with a connection or timeout error. *)
Definition connection_or_timeout {A} (r : Outcome BaseException A) : Prop :=
  exists e, r = Raise (Exc e) /\ isinstance e [ConnectionError; TimeoutError] = true.

(** A downstream handler called [n] times in a row from the state [d]:
    the outcomes of the calls, oldest first, and the state they leave. *)
Fixpoint calls_in_a_row {D A} (call_next : D -> Outcome BaseException A * D)
    (n : nat) (d : D) : list (Outcome BaseException A) * D :=
  match n with
  | O => ([], d)
  | S k =>
      let (r, d1) := call_next d in
      let (rs, d2) := calls_in_a_row call_next k d1 in
      (r :: rs, d2)
  end.

(** Reduce the field updates of a world, innermost first. *)
Ltac world_cbv :=
  cbv [add_log add_logs fold_left push_middleware push_run push_api_request
       push_ctx_error set_global_tool_categories set_global_mcp_mode
       w_log w_perf_counter w_global_tool_categories w_global_mcp_mode
       w_middleware w_runs w_api_requests w_ctx_errors].

(** ** Further notions *)

(** A text without a comma. *)
Definition comma_free (s : string) : Prop :=
  forall c, In c (list_ascii_of_string s) -> c <> ","%char.

(** The exit status of the process once the server has been started, from
    the outcome of [mcp.run]. *)
Definition exit_after_serving (r : Outcome BaseException unit) : option Z :=
  match r with
  | Ok _ => Some 0%Z
  | Raise (SystemExit code) => Some code
  | Raise KeyboardInterrupt => Some 0%Z
  | Raise (Exc _) => Some 1%Z
  | Raise CancelledError => None
  end.

(** A server that fails to start. *)
Definition serve_failing (_ : RunCall) : M World unit :=
  raise_exc OSError "[Errno 98] Address already in use".

(** An argparse that refuses every command line. *)
Definition parse_refusing (_ : list string) (_ : Z)
    : Outcome BaseException Main.Namespace :=
  Raise (SystemExit 2).

(** The process environment with both credentials. *)
Definition env_with_credentials : gmap string string :=
  {[ "INSTANA_API_TOKEN" := "token"; "INSTANA_BASE_URL" := "https://instana.example" ]}.

(** * Properties *)

(** ** Texts and worlds *)

Lemma append_nil_l (s : string) : "" +:+ s = s.
Proof. reflexivity. Qed.

Lemma append_cons (c : ascii) (a b : string) : String c a +:+ b = String c (a +:+ b).
Proof. reflexivity. Qed.

Lemma length_append (a b : string) :
  String.length (a +:+ b) = String.length a + String.length b.
Proof.
  induction a as [|c a IH]; [reflexivity |].
  rewrite append_cons. simpl. now rewrite IH.
Qed.

Lemma length_substring_0 (n : nat) (s : string) :
  n <= String.length s -> String.length (substring 0 n s) = n.
Proof.
  revert n; induction s as [|c s IH]; intros [|n] Hn; simpl in *; try reflexivity.
  - lia.
  - rewrite IH; [reflexivity | lia].
Qed.

(** [substring 0 n s] and [substring n (length s - n) s] cut [s] in two. *)
Lemma substring_split (n : nat) (s : string) :
  n <= String.length s ->
  s = substring 0 n s +:+ substring n (String.length s - n) s.
Proof.
  revert n; induction s as [|c s IH]; intros [|n] Hn; simpl in *; try reflexivity.
  - rewrite append_nil_l. f_equal. clear IH Hn.
    induction s as [|d s IHs]; simpl; [reflexivity | now f_equal].
  - rewrite append_cons. f_equal. apply IH. lia.
Qed.

Lemma slice_to_nonneg (n : nat) (s : string) :
  slice_to (Z.of_nat n) s = substring 0 n s.
Proof.
  unfold slice_to. destruct (Z.ltb_spec (Z.of_nat n) 0) as [H|_]; [lia|].
  now rewrite Nat2Z.id.
Qed.

Lemma add_logs_app (a b : list LogRecord) (w : World) :
  add_logs (a ++ b) w = add_logs b (add_logs a w).
Proof. unfold add_logs. apply fold_left_app. Qed.

Lemma w_log_add_logs (rs : list LogRecord) (w : World) :
  w_log (add_logs rs w) = w_log w ++ rs.
Proof.
  revert w; induction rs as [|r rs IH]; intros w; simpl.
  - now rewrite app_nil_r.
  - rewrite IH. simpl. now rewrite <- app_assoc.
Qed.

(** ** [_safe_dump] *)

Section SafeDumpFacts.

Context (json_dumps py_str : PyVal -> Outcome Exception string).

Local Abbreviation _safe_dump := (Server._safe_dump json_dumps py_str).

Lemma truncation_logged_for (s : string) :
  logged_for s
    (if (100 <? Z.of_nat (String.length s))%Z
     then slice_to 100 s +:+ "...(truncated)" else s).
Proof.
  split; intros Hlen.
  - destruct (Z.ltb_spec 100 (Z.of_nat (String.length s))); [lia | reflexivity].
  - destruct (Z.ltb_spec 100 (Z.of_nat (String.length s))); [| lia].
    change 100%Z with (Z.of_nat 100). rewrite slice_to_nonneg.
    assert (Hcut : String.length (substring 0 100 s) = 100)
      by (apply length_substring_0; lia).
    repeat split.
    + exists (substring 100 (String.length s - 100) s). split; [| exact Hcut].
      apply substring_split. lia.
    + rewrite length_append, Hcut. reflexivity.
Qed.

(** C6: the text [_safe_dump] logs for an argument object.  When
    [json.dumps] returns [s], the log shows [s] unchanged if it has at most
    100 characters, and otherwise its first 100 characters followed by the
    marker, 100 + 14 characters in all; when [json.dumps] raises, the text
    of [str] is used in its place; when [str] raises too, the literal
    [<unserializable>] is logged. *)
Theorem safe_dump_logged (obj : PyVal) :
  let logged := _safe_dump obj Server.max_len_default in
  (forall s, json_dumps obj = Ok s -> logged_for s logged) /\
  (forall e s, json_dumps obj = Raise e -> py_str obj = Ok s -> logged_for s logged) /\
  (forall e e', json_dumps obj = Raise e -> py_str obj = Raise e' ->
     logged = "<unserializable>").
Proof.
  unfold Server._safe_dump, Server.max_len_default.
  split; [| split].
  - intros s ->. apply truncation_logged_for.
  - intros e s -> ->. apply truncation_logged_for.
  - intros e e' -> ->. reflexivity.
Qed.

End SafeDumpFacts.

Lemma safe_dump_logged_witness :
  Sample.json_dumps Sample.long_arguments = Ok (Sample.json Sample.long_arguments) /\
  String.length (Sample.json Sample.long_arguments) = 250 /\
  String.length
    (Server._safe_dump Sample.json_dumps Sample.py_str Sample.long_arguments
       Server.max_len_default) = 114.
Proof.
  assert (Hjson : Sample.json_dumps Sample.long_arguments
                  = Ok (Sample.json Sample.long_arguments)) by reflexivity.
  assert (Hlen : String.length (Sample.json Sample.long_arguments) = 250)
    by (vm_compute; reflexivity).
  split; [exact Hjson | split; [exact Hlen |]].
  destruct (safe_dump_logged Sample.json_dumps Sample.py_str Sample.long_arguments)
    as [Hok _].
  destruct (Hok _ Hjson) as [_ Hlong].
  destruct Hlong as (_ & _ & Hl & _); [rewrite Hlen; lia |].
  exact Hl.
Defined.

Example safe_dump_short :
  Server._safe_dump Sample.json_dumps Sample.py_str (VDict [("top_n", VInt 3)]) 100
  = "{" +:+ Sample.quote +:+ "top_n" +:+ Sample.quote +:+ ": 3}".
Proof. vm_compute. reflexivity. Qed.

Example safe_dump_str_fallback :
  Server._safe_dump Sample.json_dumps Sample.py_str (VObj "Cyclic" []) 100 = "[[...]]".
Proof. vm_compute. reflexivity. Qed.

Example safe_dump_unserializable :
  Server._safe_dump Sample.json_dumps Sample.py_str (VObj "Opaque" []) 100
  = "<unserializable>".
Proof. vm_compute. reflexivity. Qed.

(** ** [TagBasedToolFilterMiddleware.on_list_tools] *)

Lemma tags_intersect_spec (categories : list string) (tool : Tool) :
  Server.tags_intersect categories tool = true <-> has_category categories tool.
Proof.
  unfold Server.tags_intersect, has_category.
  rewrite negb_true_iff, bool_decide_eq_false. split.
  - intros Hne. apply set_choose_L in Hne as [c Hc].
    exists c. set_solver.
  - intros (c & Hc & Ht). set_solver.
Qed.

(** The loop appends to the tools already kept. *)
Lemma filter_loop_from (categories : list string) (result kept : list Tool) :
  fold_left
    (fun filtered tool =>
       if Server.tags_intersect categories tool then filtered ++ [tool] else filtered)
    result kept
  = kept ++ filter (has_category categories) result.
Proof.
  revert kept; induction result as [|tool result IH]; intros kept; simpl.
  - now rewrite app_nil_r.
  - rewrite IH. rewrite filter_cons.
    destruct (Server.tags_intersect categories tool) eqn:E.
    + rewrite decide_True by now apply tags_intersect_spec.
      now rewrite <- app_assoc.
    + rewrite decide_False; [reflexivity |].
      intros H. apply tags_intersect_spec in H. congruence.
Qed.

Lemma filter_loop_filter (categories : list string) (result : list Tool) :
  Server.filter_loop categories result = filter (has_category categories) result.
Proof. unfold Server.filter_loop. now rewrite filter_loop_from. Qed.

(** The selection keeps exactly the tools with a category, in order. *)
Lemma filter_has_category_spec (categories : list string) (tools : list Tool) :
  (forall t, t ∈ filter (has_category categories) tools
             <-> t ∈ tools /\ has_category categories t) /\
  filter (has_category categories) tools `sublist_of` tools.
Proof.
  split.
  - intros t. rewrite list_elem_of_filter. tauto.
  - apply sublist_filter.
Qed.

Section TagFilterFacts.

Context (repr_strs : list string -> string).

Local Abbreviation on_list_tools := (Server.on_list_tools repr_strs).

(** C4: the tag-filter stage, for every list-tools response [tools] and
    every value [categories] of [settings.global_tool_categories] at the
    time of filtering.  With no category filter ([None] or an empty list)
    the response is returned unchanged; otherwise the stage returns the
    tools that have a category of the configured set, in their original
    order: the sub-list selected by [has_category].  The stage only adds
    log records to the world the downstream call left, and a downstream
    exception is passed on. *)
Theorem on_list_tools_filters (context : PyVal)
    (call_next : PyVal -> M World (list Tool)) (w : World) :
  match call_next context w with
  | (Ok tools, w1) =>
      exists logs filtered,
        on_list_tools context call_next w = (Ok filtered, add_logs logs w1) /\
        match w_global_tool_categories w1 with
        | None | Some [] => filtered = tools
        | Some categories =>
            filtered = filter (has_category categories) tools /\
            (forall t, t ∈ filtered <-> t ∈ tools /\ has_category categories t) /\
            filtered `sublist_of` tools
        end
  | (Raise e, w1) => on_list_tools context call_next w = (Raise e, w1)
  end.
Proof.
  unfold Server.on_list_tools, bind.
  destruct (call_next context w) as [[tools|e] w1]; [| reflexivity].
  unfold gets.
  destruct (w_global_tool_categories w1) as [[|c categories]|]; simpl.
  - exists [mkLog INFO "List all tools without filtering"], tools. now split.
  - rewrite filter_loop_filter. eexists [_], _. split; [reflexivity |].
    split; [reflexivity |]. apply filter_has_category_spec.
  - exists [mkLog INFO "List all tools without filtering"], tools. now split.
Qed.

End TagFilterFacts.

Example on_list_tools_infra :
  fst (Server.on_list_tools Sample.repr_strs VNone (fun _ => ret Sample.demo_tools)
         (set_global_tool_categories (Some ["app"; "infra"]) Sample.world0))
  = Ok [mkTool "add_two_numbers" "add two numbers and return the value." {[ "infra" ]} true].
Proof. vm_compute. reflexivity. Qed.

Example on_list_tools_unfiltered :
  fst (Server.on_list_tools Sample.repr_strs VNone (fun _ => ret Sample.demo_tools)
         Sample.world0)
  = Ok Sample.demo_tools.
Proof. reflexivity. Qed.

(** ** [run] *)

Section RunFacts.

Context (serve : RunCall -> M World unit).

Lemma run_unfold (mode : option string) (port : Z) (w : World) :
  Server.run serve mode port w
  = serve (run_call mode port) (world_at_serve mode port w).
Proof.
  unfold Server.run, world_at_serve, Server.mcp_run, Server.add_middleware,
    logger.info, bind, modify.
  unfold run_call.
  destruct w; destruct (bool_decide (mode = Some "streamable-http"));
    world_cbv; unfold pipeline; rewrite <- !app_assoc; reflexivity.
Qed.

(** C8: for every start, [run] has registered four middleware stages on
    the [mcp] object when the transport begins to serve, appended in the
    order logging, tag filter, rate limiting (100 requests per second,
    burst capacity 20), retry; on an [mcp] object without middleware these
    are all its stages.  The one call of [mcp.run] selects stdio unless
    the mode is [streamable-http], in which case it names the HTTP
    transport on host 0.0.0.0 (all interfaces) and the given port. *)
Theorem run_registers_pipeline (mode : option string) (port : Z) (w : World) :
  exists w1 call,
    Server.run serve mode port w = serve call w1 /\
    w_middleware w1 =
      w_middleware w ++
        [ LoggingMiddleware;
          TagBasedToolFilterMiddleware;
          RateLimitingMiddleware 100 20;
          RetryMiddleware 3 [ConnectionError; TimeoutError] ] /\
    (w_middleware w = [] -> length (w_middleware w1) = 4) /\
    w_runs w1 = w_runs w ++ [call] /\
    (if bool_decide (mode = Some "streamable-http")
     then transport_of call = "http" /\ rc_host call = Some "0.0.0.0"
          /\ rc_port call = Some port
     else transport_of call = "stdio").
Proof.
  exists (world_at_serve mode port w), (run_call mode port).
  split; [apply run_unfold |].
  split; [reflexivity |].
  split; [intros Hfresh; simpl; rewrite Hfresh; reflexivity |].
  split; [reflexivity |].
  unfold run_call. destruct (bool_decide (mode = Some "streamable-http")); simpl; auto.
Qed.

End RunFacts.

Lemma run_registers_pipeline_witness :
  exists w1 call,
    Server.run Sample.serve (Some "streamable-http") 8080 Sample.world0 = (Ok tt, w1) /\
    w_middleware w1 = pipeline /\
    length (w_middleware w1) = 4 /\
    call = mkRunCall (Some "http") (Some "0.0.0.0") (Some 8080%Z) /\
    w_runs w1 = [call].
Proof.
  destruct (run_registers_pipeline Sample.serve (Some "streamable-http") 8080 Sample.world0)
    as (w1 & call & Hrun & Hmw & Hfour & Hruns & Hhttp).
  exists w1, call. split; [exact Hrun |]. split; [exact Hmw |].
  split; [exact (Hfour eq_refl) |]. split; [| exact Hruns].
  simpl in Hhttp. destruct call as [t h p], Hhttp as (Ht & Hh & Hp).
  unfold transport_of in Ht. simpl in *. subst.
  destruct t as [t|]; simpl in Ht; [now subst |].
  discriminate Ht.
Defined.

Lemma registered_by_run_last (mode : option string) (port : Z) (w : World) :
  last (registered_by_run mode port w)
  = Some (RetryMiddleware 3 [ConnectionError; TimeoutError]).
Proof.
  unfold registered_by_run. rewrite run_unfold. unfold Sample.serve, ret.
  cbn [snd world_at_serve w_middleware]. unfold pipeline.
  rewrite last_app. reflexivity.
Qed.

(** ** [main] *)

Lemma display_help_logs (w : World) :
  Main.display_help w = (Ok tt, add_logs help_records w).
Proof. reflexivity. Qed.

Lemma existsb_is_help_arg (args : list string) :
  existsb Main.is_help_arg args = true <-> Exists (fun a => a ∈ Main.help_args) args.
Proof.
  rewrite existsb_exists, Exists_exists. unfold Main.is_help_arg.
  split; intros (a & Ha & Hb); exists a.
  - apply bool_decide_eq_true in Hb. split; [now apply list_elem_of_In | exact Hb].
  - split; [now apply list_elem_of_In | now apply bool_decide_eq_true].
Qed.

Lemma other_args_nil (args : list string) :
  List.filter (fun arg => negb (Main.is_help_arg arg)) args = []
  <-> Forall (fun a => a ∈ Main.help_args) args.
Proof.
  induction args as [|a args IH]; simpl.
  - split; [constructor | reflexivity].
  - unfold Main.is_help_arg at 1. destruct (bool_decide_reflect (a ∈ Main.help_args)); simpl.
    + rewrite IH. split; [now constructor | now inversion 1].
    + split; [discriminate | now inversion 1].
Qed.

Lemma tail_nonempty_length {A} (l : list A) : tail l <> [] -> (1 <? length l) = true.
Proof.
  destruct l as [|x [|y l]]; simpl; try congruence. intros _. reflexivity.
Qed.

Lemma validate_credentials_missing (env : gmap string string) :
  Main.getenv env "INSTANA_API_TOKEN" = None \/ Main.getenv env "INSTANA_BASE_URL" = None ->
  Main.validate_credentials env = false.
Proof.
  unfold Main.validate_credentials. intros [-> | ->]; simpl.
  - reflexivity.
  - now rewrite orb_true_r.
Qed.

Lemma validate_credentials_empty (env : gmap string string) :
  Main.getenv env "INSTANA_API_TOKEN" = Some "" \/ Main.getenv env "INSTANA_BASE_URL" = Some "" ->
  Main.validate_credentials env = false.
Proof.
  unfold Main.validate_credentials. intros [-> | ->]; simpl.
  - reflexivity.
  - now rewrite orb_true_r.
Qed.

Lemma stdio_mode_true (args : Main.Namespace) :
  Main.ns_transport args = Some "stdio" \/ Main.ns_transport args = None ->
  stdio_mode args = true.
Proof. unfold stdio_mode. intros [-> | ->]; reflexivity. Qed.

Section MainFacts.

Context (py_int : string -> Outcome Exception Z).
Context (parse_args : list string -> Z -> Outcome BaseException Main.Namespace).
Context (repr_strs : list string -> string).
Context (serve : RunCall -> M World unit).

Local Abbreviation main_with := (Main.main_with py_int parse_args repr_strs serve).
Local Abbreviation main := (Main.main py_int parse_args repr_strs serve).
Local Abbreviation world_after_parse := (world_after_parse repr_strs).

(** A command line without a help flag, once parsed: [main] checks the
    credentials in stdio mode and otherwise runs the server under its
    handlers. *)
Lemma main_parsed (display : M World unit) (argv : list string)
    (env : gmap string string) (w : World) (p : Z) (args : Main.Namespace) :
  existsb Main.is_help_arg (tail argv) = false ->
  py_int (Main.getenv_or env "PORT" "8080") = Ok p ->
  parse_args (tail argv) p = Ok args ->
  main_with display argv env w =
    if stdio_mode args && negb (Main.validate_credentials env)
    then (Raise (SystemExit 1), add_log credentials_error (world_after_parse args w))
    else under_handlers (Server.run serve (Main.ns_transport args) (Main.ns_port args))
           (world_after_parse args w).
Proof.
  intros Hhelp Hport Hparse.
  unfold Main.main_with, Main.main_body, under_handlers, try_except_interrupt, bind at 1.
  rewrite Hport, Hhelp, andb_false_r. simpl.
  unfold bind at 1. simpl. unfold bind at 1. rewrite Hparse.
  fold (categories_of args). fold (stdio_mode args).
  unfold bind, modify, logger.info, logger.error, sys_exit, raise; simpl.
  destruct (stdio_mode args); simpl; [| reflexivity].
  destruct (Main.validate_credentials env); simpl; reflexivity.
Qed.

(** A [PORT] that [int] rejects: the parser is not even built, and the
    outer handler exits with status 1. *)
Lemma main_bad_port (display : M World unit) (argv : list string)
    (env : gmap string string) (w : World) (e : Exception) :
  py_int (Main.getenv_or env "PORT" "8080") = Raise e ->
  main_with display argv env w =
    (Raise (SystemExit 1), add_log (mkLog ERROR ("Server error: " +:+ exc_text e)) w).
Proof.
  intros Hport.
  unfold Main.main_with, Main.main_body, try_except_interrupt, bind at 1.
  rewrite Hport. reflexivity.
Qed.

(** The environment is read twice: for [PORT] and for the credentials. *)
Lemma main_env_ext (display : M World unit) (argv : list string)
    (env env' : gmap string string) :
  Main.getenv_or env "PORT" "8080" = Main.getenv_or env' "PORT" "8080" ->
  Main.validate_credentials env = Main.validate_credentials env' ->
  main_with display argv env = main_with display argv env'.
Proof.
  intros Hport Hcred. unfold Main.main_with, Main.main_body.
  rewrite Hport, Hcred. reflexivity.
Qed.

(** A stdio start without credentials, whatever [PORT] holds. *)
Lemma main_stdio_no_credentials (display : M World unit) (argv : list string)
    (env : gmap string string) (w : World) :
  existsb Main.is_help_arg (tail argv) = false ->
  stdio_command_line parse_args argv ->
  Main.validate_credentials env = false ->
  exists w',
    main_with display argv env w = (Raise (SystemExit 1), w') /\
    w_runs w' = w_runs w /\ w_middleware w' = w_middleware w.
Proof.
  intros Hhelp Hstdio Hcred.
  destruct (py_int (Main.getenv_or env "PORT" "8080")) as [p|e] eqn:Hport.
  - destruct (Hstdio p) as (args & Hparse & Hmode).
    rewrite (main_parsed _ _ _ _ _ _ Hhelp Hport Hparse).
    rewrite (stdio_mode_true _ Hmode), Hcred. simpl.
    eexists. repeat split; reflexivity.
  - rewrite (main_bad_port _ _ _ _ _ Hport).
    eexists. repeat split; reflexivity.
Qed.

(** C3: startup and the credentials.  For a command line without a help
    flag: when it names the transport [stdio] or none and the environment
    lacks the API token or the base URL, the process exits with status 1,
    no middleware is registered and [mcp.run] is not called; when it names
    [streamable-http], [main] goes on to run the server on the HTTP
    transport whatever the environment holds of credentials. *)
Theorem stdio_requires_credentials (argv : list string) (env : gmap string string)
    (w : World) :
  existsb Main.is_help_arg (tail argv) = false ->
  (stdio_command_line parse_args argv ->
   Main.getenv env "INSTANA_API_TOKEN" = None \/ Main.getenv env "INSTANA_BASE_URL" = None ->
   exists w',
     main argv env w = (Raise (SystemExit 1), w') /\
     Main.exit_status (fst (main argv env w)) = Some 1%Z /\
     w_runs w' = w_runs w /\ w_middleware w' = w_middleware w)
  /\
  (forall p args,
     py_int (Main.getenv_or env "PORT" "8080") = Ok p ->
     parse_args (tail argv) p = Ok args ->
     Main.ns_transport args = Some "streamable-http" ->
     exists w1 call,
       main argv env w = under_handlers (serve call) w1 /\
       call = mkRunCall (Some "http") (Some "0.0.0.0") (Some (Main.ns_port args)) /\
       w_middleware w1 = w_middleware w ++ pipeline /\
       w_runs w1 = w_runs w ++ [call]).
Proof.
  intros Hhelp. unfold Main.main. split.
  - intros Hstdio Hmissing.
    destruct (main_stdio_no_credentials Main.display_help argv env w Hhelp Hstdio
                (validate_credentials_missing _ Hmissing))
      as (w' & Hmain & Hruns & Hmw).
    exists w'. rewrite Hmain. repeat split; assumption.
  - intros p args Hport Hparse Hhttp.
    rewrite (main_parsed _ _ _ _ _ _ Hhelp Hport Hparse).
    unfold stdio_mode. rewrite Hhttp. simpl.
    exists (world_at_serve (Some "streamable-http") (Main.ns_port args)
              (world_after_parse args w)),
      (mkRunCall (Some "http") (Some "0.0.0.0") (Some (Main.ns_port args))).
    split; [| repeat split].
    unfold under_handlers, try_except_interrupt, try_except.
    now rewrite run_unfold.
Qed.

(** C9: a credential set to the empty string counts as absent.
    [validate_credentials] is false, [main] behaves as it does with the
    variable removed from the environment, and a stdio start exits with
    status 1. *)
Theorem empty_credential_as_unset (argv : list string) (env : gmap string string)
    (w : World) (k : string) :
  k = "INSTANA_API_TOKEN" \/ k = "INSTANA_BASE_URL" ->
  env !! k = Some "" ->
  Main.validate_credentials env = false /\
  Main.validate_credentials (delete k env) = false /\
  main argv env w = main argv (delete k env) w /\
  (existsb Main.is_help_arg (tail argv) = false ->
   stdio_command_line parse_args argv ->
   Main.exit_status (fst (main argv env w)) = Some 1%Z).
Proof.
  intros Hk Hempty.
  assert (Hfalse : Main.validate_credentials env = false).
  { apply validate_credentials_empty. unfold Main.getenv.
    destruct Hk as [-> | ->]; [left | right]; exact Hempty. }
  assert (Hdel : Main.validate_credentials (delete k env) = false).
  { apply validate_credentials_missing. unfold Main.getenv.
    destruct Hk as [-> | ->]; [left | right]; apply lookup_delete_eq. }
  split; [exact Hfalse |]. split; [exact Hdel |]. split.
  - unfold Main.main. rewrite (main_env_ext _ argv env (delete k env)); [reflexivity | |].
    + unfold Main.getenv_or. rewrite lookup_delete_ne; [reflexivity |].
      destruct Hk as [-> | ->]; discriminate.
    + now rewrite Hfalse, Hdel.
  - intros Hhelp Hstdio. unfold Main.main.
    destruct (main_stdio_no_credentials Main.display_help argv env w Hhelp Hstdio Hfalse)
      as (w' & -> & _). reflexivity.
Qed.

(** A command line with a help flag, once the parser is built. *)
Lemma main_help (display : M World unit) (argv : list string)
    (env : gmap string string) (w : World) (p : Z) :
  Exists (fun a => a ∈ Main.help_args) (tail argv) ->
  py_int (Main.getenv_or env "PORT" "8080") = Ok p ->
  main_with display argv env w =
    if bool_decide (List.filter (fun arg => negb (Main.is_help_arg arg)) (tail argv) = [])
    then
      match display w with
      | (Ok _, w') => (Raise (SystemExit 0), w')
      | (Raise (Exc e), w') =>
          (Raise (SystemExit 0),
           add_log (mkLog ERROR ("Error displaying help: " +:+ exc_text e)) w')
      | (Raise KeyboardInterrupt, w') =>
          (Raise (SystemExit 0), add_log (mkLog INFO "Server stopped by user") w')
      | (Raise b, w') => (Raise b, w')
      end
    else
      (Raise (SystemExit 2),
       add_log (mkLog ERROR "Argument -h/--h/--help/-help: not allowed with other arguments") w).
Proof.
  intros Hhelp Hport.
  assert (Hlen : (1 <? length argv) = true).
  { apply tail_nonempty_length. intros Hnil. rewrite Hnil in Hhelp. inversion Hhelp. }
  apply existsb_is_help_arg in Hhelp.
  unfold Main.main_with, Main.main_body, try_except_interrupt, bind at 1.
  rewrite Hport. simpl. rewrite Hlen, Hhelp. simpl.
  unfold bind at 1. unfold bind at 1.
  destruct (bool_decide (List.filter _ (tail argv) = [])); simpl; [| reflexivity].
  unfold bind at 1. simpl.
  unfold Main.show_help_and_exit, try_except, bind at 1.
  destruct (display w) as [[[]|[code| | |e]] w']; reflexivity.
Qed.

(** C7, as amended: a command line with a help flag.  When [PORT] is unset
    or holds an integer: if every argument is a help flag, the process
    exits with status 0, also when the display raises an exception, and
    [main] logs the help; if another argument stands beside the help flag,
    the process exits with status 2 and no middleware is registered and
    [mcp.run] is not called.  When [int] rejects [PORT], the process exits
    with status 1 before it looks at the command line. *)
Theorem help_exit_status (display : M World unit) (argv : list string)
    (env : gmap string string) (w : World) :
  Exists (fun a => a ∈ Main.help_args) (tail argv) ->
  match py_int (Main.getenv_or env "PORT" "8080") with
  | Ok _ =>
      (Forall (fun a => a ∈ Main.help_args) (tail argv) ->
         (raises_only_exceptions display ->
          Main.exit_status (fst (main_with display argv env w)) = Some 0%Z) /\
         main argv env w = (Raise (SystemExit 0), add_logs help_records w))
      /\
      (Exists (fun a => a ∉ Main.help_args) (tail argv) ->
         exists w',
           main_with display argv env w = (Raise (SystemExit 2), w') /\
           w_middleware w' = w_middleware w /\ w_runs w' = w_runs w)
  | Raise _ =>
      Main.exit_status (fst (main_with display argv env w)) = Some 1%Z
  end.
Proof.
  intros Hhelp.
  destruct (py_int (Main.getenv_or env "PORT" "8080")) as [p|e] eqn:Hport.
  - split.
    + intros Honly. apply other_args_nil in Honly. split.
      * intros Hdisplay. rewrite (main_help _ _ _ _ _ Hhelp Hport), Honly. simpl.
        specialize (Hdisplay w).
        destruct (display w) as [[[]|[code| | |e]] w']; simpl in *;
          try reflexivity; contradiction.
      * unfold Main.main. rewrite (main_help _ _ _ _ _ Hhelp Hport), Honly.
        rewrite bool_decide_eq_true_2 by reflexivity.
        rewrite display_help_logs. reflexivity.
    + intros Hother. rewrite (main_help _ _ _ _ _ Hhelp Hport).
      rewrite bool_decide_eq_false_2.
      * eexists. repeat split; reflexivity.
      * rewrite other_args_nil. intros Hall.
        apply Exists_exists in Hother as (a & Ha & Hnot).
        rewrite Forall_forall in Hall. exact (Hnot (Hall a Ha)).
  - rewrite (main_bad_port _ _ _ _ _ Hport). reflexivity.
Qed.

End MainFacts.

(** *** [main] on concrete command lines *)

Lemma sample_stdio_command_line : stdio_command_line Sample.parse_args ["mcp-instana"].
Proof. intros p. eexists. split; [reflexivity | right; reflexivity]. Defined.

Lemma stdio_requires_credentials_witness :
  Main.exit_status (fst (Sample.sample_main ["mcp-instana"] Sample.empty_env Sample.world0))
    = Some 1%Z /\
  (exists w1 call,
     Sample.sample_main ["mcp-instana"; "--transport"; "streamable-http"]
       Sample.empty_env Sample.world0 = (Ok tt, w1) /\
     w_runs w1 = [call] /\ transport_of call = "http").
Proof.
  split.
  - destruct (stdio_requires_credentials Sample.py_int Sample.parse_args Sample.repr_strs
                Sample.serve ["mcp-instana"] Sample.empty_env Sample.world0 eq_refl)
      as [Hstdio _].
    destruct (Hstdio sample_stdio_command_line (or_introl eq_refl)) as (w' & _ & Hexit & _).
    exact Hexit.
  - destruct (stdio_requires_credentials Sample.py_int Sample.parse_args Sample.repr_strs
                Sample.serve ["mcp-instana"; "--transport"; "streamable-http"]
                Sample.empty_env Sample.world0 eq_refl)
      as [_ Hhttp].
    destruct (Hhttp 8080%Z (Main.mkNamespace false (Some "streamable-http") None 8080)
                eq_refl eq_refl eq_refl)
      as (w1 & call & Hmain & Hcall & _ & Hruns).
    exists w1, call. subst call. repeat split; [exact Hmain | exact Hruns].
Defined.

Lemma empty_credential_as_unset_witness :
  let env : gmap string string :=
    {[ "INSTANA_API_TOKEN" := ""; "INSTANA_BASE_URL" := "https://instana.example" ]} in
  Main.validate_credentials env = false /\
  Sample.sample_main ["mcp-instana"] env Sample.world0
    = Sample.sample_main ["mcp-instana"] (delete "INSTANA_API_TOKEN" env) Sample.world0 /\
  Main.exit_status (fst (Sample.sample_main ["mcp-instana"] env Sample.world0)) = Some 1%Z.
Proof.
  intros env.
  destruct (empty_credential_as_unset Sample.py_int Sample.parse_args Sample.repr_strs
              Sample.serve ["mcp-instana"] env Sample.world0 "INSTANA_API_TOKEN"
              (or_introl eq_refl) eq_refl)
    as (Hfalse & _ & Hsame & Hexit).
  split; [exact Hfalse |]. split; [exact Hsame |].
  exact (Hexit eq_refl sample_stdio_command_line).
Defined.

(** With [PORT=abc] in the environment, [--help] alone exits with status
    1, not 0: [int] raises [ValueError] while the parser is built, before
    the help flags are looked at. *)
Lemma help_exit_status_counterexample :
  let argv := ["mcp-instana"; "--help"] in
  let env : gmap string string := {[ "PORT" := "abc" ]} in
  Forall (fun a => a ∈ Main.help_args) (tail argv) /\
  Main.exit_status (fst (Sample.sample_main argv env Sample.world0)) = Some 1%Z /\
  Main.exit_status (fst (Sample.sample_main argv env Sample.world0)) <> Some 0%Z.
Proof.
  split; [| split].
  - repeat constructor.
  - reflexivity.
  - discriminate.
Qed.

Lemma help_exit_status_witness :
  Sample.sample_main ["mcp-instana"; "--help"] Sample.empty_env Sample.world0
    = (Raise (SystemExit 0), add_logs help_records Sample.world0) /\
  Main.exit_status
    (fst (Sample.sample_main ["mcp-instana"; "--help"; "--tools"; "infra"]
            Sample.empty_env Sample.world0))
    = Some 2%Z.
Proof.
  assert (Hflag : "--help" ∈ Main.help_args) by (repeat constructor).
  assert (Hinfra : "--tools" ∉ Main.help_args)
    by (apply (proj1 (bool_decide_eq_false _)); reflexivity).
  assert (Hex1 : Exists (fun a => a ∈ Main.help_args) (tail ["mcp-instana"; "--help"]))
    by (apply Exists_cons_hd; exact Hflag).
  assert (Hex2 : Exists (fun a => a ∈ Main.help_args)
                   (tail ["mcp-instana"; "--help"; "--tools"; "infra"]))
    by (apply Exists_cons_hd; exact Hflag).
  split.
  - pose proof (help_exit_status Sample.py_int Sample.parse_args Sample.repr_strs
                  Sample.serve Main.display_help ["mcp-instana"; "--help"] Sample.empty_env
                  Sample.world0 Hex1) as H.
    change (Sample.py_int _) with (@Ok Exception Z 8080%Z) in H.
    cbv beta iota in H. destruct H as [Honly _].
    apply Honly. repeat constructor.
  - pose proof (help_exit_status Sample.py_int Sample.parse_args Sample.repr_strs
                  Sample.serve Main.display_help
                  ["mcp-instana"; "--help"; "--tools"; "infra"] Sample.empty_env
                  Sample.world0 Hex2) as H.
    change (Sample.py_int _) with (@Ok Exception Z 8080%Z) in H.
    cbv beta iota in H. destruct H as [_ Hother].
    destruct Hother as (w' & Hmain & _).
    + apply Exists_cons_tl, Exists_cons_hd. exact Hinfra.
    + unfold Sample.sample_main, Main.main. now rewrite Hmain.
Defined.

Example main_serves_with_credentials :
  let env : gmap string string :=
    {[ "INSTANA_API_TOKEN" := "token"; "INSTANA_BASE_URL" := "https://instana.example" ]} in
  exists w',
    Sample.sample_main ["mcp-instana"; "--tools"; "infra,app"] env Sample.world0
      = (Ok tt, w') /\
    w_global_tool_categories w' = Some ["infra"; "app"] /\
    w_global_mcp_mode w' = "stdio" /\
    w_middleware w' = pipeline /\
    w_runs w' = [mkRunCall None None None].
Proof. eexists. repeat split; vm_compute; reflexivity. Qed.

(** ** [LoggingMiddleware.on_message] *)

Section LoggingFacts.

Context (json_dumps py_str py_format : PyVal -> Outcome Exception string).
Context (format_ms : Z -> string).
Context {R : Type}.

Local Abbreviation St := (@Server.St R).
Local Abbreviation log_inbound := (@Server.log_inbound json_dumps py_str py_format R).
Local Abbreviation log_completed := (@Server.log_completed py_format format_ms R).
Local Abbreviation on_message :=
  (@Server.on_message json_dumps py_str py_format format_ms R).

Lemma logs_only_ret {A} (a : A) : logs_only (ret a : M St A).
Proof. intros f w. exists f, [], (Ok a). now split. Qed.

Lemma logs_only_bind {A B} (m : M St A) (k : A -> M St B) :
  logs_only m -> (forall a, logs_only (k a)) -> logs_only (bind m k).
Proof.
  intros Hm Hk f w. unfold bind.
  destruct (Hm f w) as (f1 & logs1 & [a|e] & -> & Hr).
  - destruct (Hk a f1 (add_logs logs1 w)) as (f2 & logs2 & r & -> & Hr2).
    exists f2, (logs1 ++ logs2), r. now rewrite add_logs_app.
  - exists f1, logs1, (Raise e). now split.
Qed.

Lemma logs_only_call {A} (r : Outcome Exception A) : logs_only (call r : M St A).
Proof.
  intros f w. destruct r as [a|e]; simpl.
  - exists f, [], (Ok a). now split.
  - exists f, [], (Raise (Exc e)). now split.
Qed.

Lemma logs_only_assign (g : Server.Frame R -> Server.Frame R) :
  logs_only (Server.assign g).
Proof. intros f w. exists (g f), [], (Ok tt). now split. Qed.

Lemma logs_only_local {A} (name : string) (get : Server.Frame R -> option A) :
  logs_only (Server.local name get).
Proof.
  intros f w. unfold Server.local. simpl. destruct (get f) as [a|]; simpl.
  - exists f, [], (Ok a). now split.
  - eexists f, [], _. now split.
Qed.

Lemma logs_only_log (r : LogRecord) :
  logs_only (Server.in_world (modify (add_log r)) : M St unit).
Proof. intros f w. exists f, [r], (Ok tt). now split. Qed.

Lemma logs_only_if {A} (b : bool) (m1 m2 : M St A) :
  logs_only m1 -> logs_only m2 -> logs_only (if b then m1 else m2).
Proof. now destruct b. Qed.

Create HintDb logging discriminated.
#[local] Hint Resolve logs_only_ret logs_only_call logs_only_assign logs_only_local
  logs_only_log logs_only_if : logging.

Ltac logs_only_step :=
  first [ apply logs_only_bind; [| intros ?] | apply logs_only_if | solve [auto with logging] ].

Lemma log_inbound_logs_only (context : PyVal) : logs_only (log_inbound context).
Proof.
  unfold Server.log_inbound, logger.info, logger.debug. cbv zeta.
  repeat logs_only_step.
Qed.

(** The first [try] always falls through to the downstream call. *)
Lemma inbound_logged (context : PyVal) (f : Server.Frame R) (w : World) :
  exists f1 pre,
    try_except (log_inbound context)
      (fun e =>
         Server.in_world
           (logger.exception
              ("LoggingMiddleware failed to inspect the inbound message: "
                 +:+ exc_text e))) (f, w)
    = (Ok tt, (f1, add_logs pre w)).
Proof.
  unfold try_except.
  destruct (log_inbound_logs_only context f w) as (f1 & logs & r & -> & Hr).
  destruct r as [[]|[code| | |e]]; simpl in Hr; try contradiction.
  - now exists f1, logs.
  - exists f1, (logs ++ [mkLog ERROR
                           ("LoggingMiddleware failed to inspect the inbound message: "
                              +:+ exc_text e)]).
    now rewrite add_logs_app.
Qed.

(** The last [try] leaves the locals as they are and always falls
    through. *)
Lemma completed_logged (f : Server.Frame R) (w : World) :
  exists post,
    try_except log_completed (fun _ => ret tt) (f, w) = (Ok tt, (f, add_logs post w)).
Proof.
  unfold try_except, Server.log_completed, Server.local, bind, logger.info.
  simpl.
  destruct (Server.l_tool_name f) as [tool_name|]; simpl;
    [| exists []; reflexivity].
  destruct (truthy tool_name); cbn [fst snd].
  - destruct (py_format tool_name) as [s|e]; simpl; [| exists []; reflexivity].
    destruct (Server.l_elapsed_ms f) as [t|]; simpl; [| exists []; reflexivity].
    eexists [_]; reflexivity.
  - destruct (Server.l_method f) as [method|]; simpl; [| exists []; reflexivity].
    destruct (py_format method) as [s|e]; simpl; [| exists []; reflexivity].
    destruct (Server.l_elapsed_ms f) as [t|]; simpl; [| exists []; reflexivity].
    eexists [_]; reflexivity.
Qed.

(** [on_message] around one downstream call: the locals at the time of the
    last [try] hold the result and the elapsed time. *)
Lemma on_message_unfold (context : PyVal) (call_next : PyVal -> M World R)
    (w : World) (f1 : Server.Frame R) (pre : list LogRecord) :
  try_except (log_inbound context)
    (fun e =>
       Server.in_world
         (logger.exception
            ("LoggingMiddleware failed to inspect the inbound message: "
               +:+ exc_text e))) (Server.frame0, w)
  = (Ok tt, (f1, add_logs pre w)) ->
  on_message context call_next w =
    match call_next context (add_logs pre w) with
    | (Ok result, w2) =>
        let f3 :=
          Server.set_elapsed_ms (w_perf_counter w2 - w_perf_counter (add_logs pre w))
            (Server.set_result result
               (Server.set_start (w_perf_counter (add_logs pre w)) f1)) in
        match try_except log_completed (fun _ => ret tt) (f3, w2) with
        | (Ok _, s) => (Ok result, snd s)
        | (Raise b, s) => (Raise b, snd s)
        end
    | (Raise e, w2) => (Raise e, w2)
    end.
Proof.
  intros Hpre.
  unfold Server.on_message, Server.on_message_body.
  unfold bind at 1. rewrite Hpre.
  unfold bind at 1, Server.perf_counter at 1, Server.in_world at 1, gets.
  cbn [fst snd].
  unfold bind at 1, Server.assign at 1, modify. cbn [fst snd].
  unfold bind at 1, try_finally, bind at 1, Server.in_world at 1. cbn [fst snd].
  destruct (call_next context (add_logs pre w)) as [[result|e] w2]; [| reflexivity].
  unfold Server.assign at 1, modify. cbn [fst snd].
  unfold bind at 1, Server.perf_counter at 1, Server.in_world at 1, gets.
  cbn [fst snd].
  unfold bind at 1, Server.local at 1. cbn [fst snd Server.set_result Server.l_start
    Server.set_start read_local ret].
  unfold Server.assign at 1, modify. cbn [fst snd].
  unfold bind at 1.
  match goal with
  | |- context [try_except _ _ ?s] => destruct (try_except log_completed (fun _ => ret tt) s)
      as [[[]|b] [f4 w4]] eqn:Hpost
  end; [| reflexivity].
  pose proof Hpost as Hpost'.
  match type of Hpost with
  | try_except _ _ (?f, ?w0) = _ =>
      destruct (completed_logged f w0) as (post & Heq)
  end.
  rewrite Heq in Hpost'. inversion Hpost'; subst. reflexivity.
Qed.

(** C10: the logging stage is transparent.  Whatever the inbound context
    holds and whatever formatting does, [on_message] runs the downstream
    handler once, in the world it was given plus the records logged before
    the call, and hands back the handler's outcome: its result with the
    records logged after the call added to the world the handler left, or
    its exception with that world as it is. *)
Theorem on_message_transparent (context : PyVal) (call_next : PyVal -> M World R)
    (w : World) :
  exists pre,
    match call_next context (add_logs pre w) with
    | (Ok result, w2) =>
        exists post, on_message context call_next w = (Ok result, add_logs post w2)
    | (Raise e, w2) => on_message context call_next w = (Raise e, w2)
    end.
Proof.
  destruct (inbound_logged context Server.frame0 w) as (f1 & pre & Hpre).
  exists pre. rewrite (on_message_unfold context call_next w f1 pre Hpre).
  destruct (call_next context (add_logs pre w)) as [[result|e] w2]; [| reflexivity].
  cbv zeta.
  match goal with
  | |- context [try_except _ _ (?f, w2)] =>
      destruct (completed_logged f w2) as (post & ->)
  end.
  exists post. reflexivity.
Qed.

End LoggingFacts.

(** *** [on_message] on concrete messages *)

Example on_message_tool_call :
  Sample.sample_on_message Sample.tool_call_context (fun _ => ret (VInt 5)) Sample.world0
  = (Ok (VInt 5),
     add_logs
       [ mkLog INFO "Invoking tool: list_top_applications_by_performance, by method tools/call) from client";
         mkLog DEBUG ("Tool name: 'list_top_applications_by_performance'; args: {"
                        +:+ Sample.quote +:+ "top_n" +:+ Sample.quote +:+ ": 3}");
         mkLog INFO "Completed tool 'list_top_applications_by_performance' in 0.0ms" ]
       Sample.world0).
Proof. vm_compute. reflexivity. Qed.

(** Inspecting [odd_context] fails, and so does the completion log; the
    result of the handler comes back all the same. *)
Example on_message_logging_fails :
  Sample.sample_on_message Sample.odd_context (fun _ => ret (VInt 5)) Sample.world0
  = (Ok (VInt 5),
     add_logs
       [ mkLog ERROR "LoggingMiddleware failed to inspect the inbound message: 'CallToolRequestParams' object has no attribute 'get'" ]
       Sample.world0).
Proof. vm_compute. reflexivity. Qed.

Example on_message_downstream_raises :
  fst (Sample.sample_on_message Sample.odd_context (fun _ => raise_exc ToolError "boom")
         Sample.world0)
  = Raise (Exc (mkExc ToolError "boom")).
Proof. vm_compute. reflexivity. Qed.

(** The handler is the tool itself: one request has been sent when
    [on_message] returns. *)
Example on_message_calls_once :
  w_api_requests
    (snd (Sample.sample_on_message Sample.tool_call_context
            (fun _ => Sample.tool_answering Sample.no_arguments) Sample.world0))
  = [ mkRequest true true [mkMetric (Some "MEAN") (Some "latency")]
        (mkTimeFrame 1700000000000 (Some 3600000%Z)) ].
Proof. vm_compute. reflexivity. Qed.

(** ** [list_top_applications_by_performance] *)

Section ToolFacts.

Context (now_ms : Z) (client_enter : Outcome Exception unit).
Context (Response : Type).
Context (get_application_data_metrics_v2 : GetApplicationMetrics -> Outcome Exception Response).
Context (to_dict : Response -> Outcome Exception PyVal).
Context (Context_error : TopPerformance.Context -> string -> Outcome BaseException unit).

Local Abbreviation tool :=
  (TopPerformance.list_top_applications_by_performance now_ms client_enter Response
     get_application_data_metrics_v2 to_dict Context_error).
Local Abbreviation request := (request_now now_ms).

(** Without [to_time_ms], one request is sent, and its time frame ends now
    and spans [duration_ms]. *)
Lemma tool_request_without_to_time (metric : option string) (duration_ms top_n : option Z)
    (aggregation order : option string) (ctx : option TopPerformance.Context) (w : World) :
  client_enter = Ok tt ->
  w_api_requests (snd (tool metric None duration_ms top_n aggregation order ctx w))
  = w_api_requests w ++ [request metric aggregation duration_ms].
Proof.
  intros Henter.
  unfold TopPerformance.list_top_applications_by_performance, request_now.
  rewrite Henter. unfold bind at 1. cbn [call ret]. unfold bind at 1. cbn [read_local ret].
  unfold try_except, bind, logger.debug, logger.error, modify, TopPerformance.ctx_error,
    await.
  destruct (get_application_data_metrics_v2 _) as [result|e]; cbn [call ret raise].
  - destruct (to_dict result) as [d|e]; cbn [call ret raise].
    + reflexivity.
    + destruct ctx as [c|]; [destruct (Context_error c _) as [[]|b] |]; reflexivity.
  - destruct ctx as [c|]; [destruct (Context_error c _) as [[]|b] |]; reflexivity.
Qed.

(** With [to_time_ms] given, the local [to_time] is never bound: building
    the request raises [UnboundLocalError] and no request is sent. *)
Lemma tool_with_to_time (metric : option string) (t : Z) (duration_ms top_n : option Z)
    (aggregation order : option string) (ctx : option TopPerformance.Context) (w : World) :
  tool metric (Some t) duration_ms top_n aggregation order ctx w =
    (match client_enter with
     | Ok _ => Raise (Exc unbound_to_time)
     | Raise e => Raise (Exc e)
     end, w).
Proof.
  unfold TopPerformance.list_top_applications_by_performance.
  unfold bind at 1. destruct client_enter as [[]|e]; reflexivity.
Qed.


End ToolFacts.

(** *** The tool on concrete calls *)

(** The part of C1 the code keeps: called without arguments at time
    [1700000000000], the tool sends one request whose time frame ends now
    and spans the last hour. *)
Example invoke_defaults_request :
  w_api_requests (snd (Sample.tool_answering Sample.no_arguments Sample.world0))
  = [ mkRequest true true [mkMetric (Some "MEAN") (Some "latency")]
        (mkTimeFrame 1700000000000 (Some 3600000%Z)) ].
Proof. reflexivity. Qed.

(** C1 at the failing input: with [to_time_ms=1618081200000] the call
    raises [UnboundLocalError] and sends no request, where the claim has a
    request whose [to] is 1618081200000. *)
Theorem invoke_with_to_time_raises :
  Sample.tool_answering (Sample.with_to_time 1618081200000) Sample.world0
  = (Raise (Exc unbound_to_time), Sample.world0)
  /\ w_api_requests
       (snd (Sample.tool_answering (Sample.with_to_time 1618081200000) Sample.world0))
     = [].
Proof. split; reflexivity. Qed.

(** C2 at the failing input: the API call raises and no context was
    passed ([ctx=None], the default).  The call fails with
    [AttributeError], raised by [ctx.error] in the handler, where the claim
    has a [ToolError]. *)
Theorem invoke_without_ctx_raises :
  fst (Sample.tool_refused Sample.no_arguments Sample.world0)
  = Raise (Exc (mkExc AttributeError "'NoneType' object has no attribute 'error'")).
Proof. reflexivity. Qed.

(** With a context the same failure is reported and becomes a
    [ToolError]. *)
Example invoke_with_ctx_raises_tool_error :
  let r :=
    Sample.tool_refused (Sample.with_ctx (TopPerformance.mkContext "req-1"))
      Sample.world0 in
  fst r = Raise (Exc (mkExc ToolError
                        "Instana API call [get_application_data_metrics_v2] error: [Errno 111] Connection refused"))
  /\ w_ctx_errors (snd r)
     = ["Error calling tool list_top_applications_by_performance: [Errno 111] Connection refused"].
Proof. split; reflexivity. Qed.

(** ** The retry stage [run] registers *)

Section RetryFacts.

Context {D A : Type}.
Context (call_next : D -> Outcome BaseException A * D).
Context (base_delay backoff_multiplier : Z).

Local Abbreviation attempt_loop :=
  (RetryStage.attempt_loop call_next base_delay backoff_multiplier).
Local Abbreviation on_request :=
  (RetryStage.on_request call_next base_delay backoff_multiplier).
Local Abbreviation calculate_delay :=
  (RetryStage.calculate_delay base_delay backoff_multiplier).

Lemma should_retry_spec (r : Outcome BaseException A) :
  RetryStage.should_retry [ConnectionError; TimeoutError] r = true
  <-> connection_or_timeout r.
Proof.
  unfold connection_or_timeout. split.
  - destruct r as [a|[code| | |e]]; simpl; try discriminate. intros H. now exists e.
  - intros (e & -> & H). exact H.
Qed.

Lemma calls_in_a_row_S (n : nat) (d : D) :
  calls_in_a_row call_next (S n) d =
    (fst (call_next d) :: fst (calls_in_a_row call_next n (snd (call_next d))),
     snd (calls_in_a_row call_next n (snd (call_next d)))).
Proof.
  cbn [calls_in_a_row]. destruct (call_next d) as [r d1]. cbn [fst snd].
  destruct (calls_in_a_row call_next n d1) as [rs d2]. reflexivity.
Qed.

Lemma calls_in_a_row_1 (d : D) :
  calls_in_a_row call_next 1 d = ([fst (call_next d)], snd (call_next d)).
Proof. rewrite calls_in_a_row_S. reflexivity. Qed.

(** The loop, from any state: the outcomes it adds are failures that were
    retried, followed by the outcome it surfaces; it retries at most
    [retries_left] times, and gives up on a retryable failure only when
    the retries are used up; before retry [k] it sleeps
    [calculate_delay k]; the outcomes are those of the downstream handler
    called that many times in a row, and the downstream state is the one
    these calls leave. *)
Lemma attempt_loop_spec (excs : list ExcClass) (retries_left attempt : nat)
    (st : RetryStage.State) :
  exists earlier,
    let r := fst (attempt_loop excs retries_left attempt st) in
    let st' := snd (attempt_loop excs retries_left attempt st) in
    RetryStage.rs_outcomes st' = RetryStage.rs_outcomes st ++ earlier ++ [r] /\
    Forall (fun o => RetryStage.should_retry excs o = true) earlier /\
    length earlier <= retries_left /\
    (RetryStage.should_retry excs r = true -> length earlier = retries_left) /\
    RetryStage.rs_sleeps st' =
      RetryStage.rs_sleeps st ++ map calculate_delay (seq attempt (length earlier)) /\
    hd_error (earlier ++ [r]) = Some (fst (call_next (RetryStage.rs_down st))) /\
    calls_in_a_row call_next (S (length earlier)) (RetryStage.rs_down st)
      = (earlier ++ [r], RetryStage.rs_down st').
Proof.
  revert attempt st. induction retries_left as [|k IH]; intros attempt st.
  - exists []. cbv zeta. rewrite calls_in_a_row_S. cbn [RetryStage.attempt_loop].
    destruct (call_next (RetryStage.rs_down st)) as [r d]. simpl.
    rewrite app_nil_r. repeat split; auto.
  - cbn [RetryStage.attempt_loop].
    destruct (call_next (RetryStage.rs_down st)) as [r d] eqn:Hcall.
    destruct (RetryStage.should_retry excs r) eqn:Hretry.
    + match goal with
      | |- context [attempt_loop excs k (S attempt) ?s] =>
          destruct (IH (S attempt) s)
            as (earlier & Hout & Hall & Hlen & Hlast & Hsleep & _ & Htrace)
      end.
      exists (r :: earlier). cbv zeta in *.
      cbn [RetryStage.rs_outcomes RetryStage.rs_sleeps RetryStage.rs_down fst snd
           length app hd_error] in *.
      rewrite calls_in_a_row_S, Hcall. cbn [fst snd].
      rewrite Htrace, Hout, Hsleep, <- !app_assoc.
      cbn [fst snd app map seq].
      repeat split; auto. lia.
    + exists []. cbv zeta. rewrite calls_in_a_row_S, Hcall. simpl. rewrite app_nil_r.
      repeat split; auto; [lia |].
      intros H. congruence.
Qed.

(** C5: the retry stage, for a stage modelled on the spec.  The stage is
    the last middleware [run] registers.  For every downstream handler,
    the outcomes of its calls are the failures that were retried, followed
    by the outcome the stage surfaces.  Only connection and timeout errors
    are retried; there are at most 3 retries; a connection or timeout
    error is surfaced only when the 3 retries are used up; before retry
    [k] the stage sleeps [base_delay * backoff_multiplier ^ k]; when the
    first call does not fail with a connection or timeout error, its
    outcome is surfaced after that single call; and the outcomes are those
    of the downstream handler called once more than there are retries, in
    a row from the state the request arrives in, which leaves the
    downstream state the stage ends in. *)
Theorem retry_stage_policy (mode : option string) (port : Z) (w : World)
    (stage : Middleware) (d : D) :
  last (registered_by_run mode port w) = Some stage ->
  exists retried,
    let r := fst (on_request stage d) in
    let st := snd (on_request stage d) in
    RetryStage.rs_outcomes st = retried ++ [r] /\
    Forall connection_or_timeout retried /\
    length retried <= 3 /\
    (connection_or_timeout r -> length retried = 3) /\
    RetryStage.rs_sleeps st =
      map (fun k => (base_delay * backoff_multiplier ^ Z.of_nat k)%Z)
        (seq 0 (length retried)) /\
    (~ connection_or_timeout (fst (call_next d)) ->
       retried = [] /\ r = fst (call_next d)) /\
    calls_in_a_row call_next (S (length retried)) d
      = (retried ++ [r], RetryStage.rs_down st).
Proof.
  rewrite registered_by_run_last. intros [= <-].
  unfold RetryStage.on_request.
  destruct (attempt_loop_spec [ConnectionError; TimeoutError] 3 0
              (RetryStage.mkState [] [] d))
    as (retried & Hout & Hall & Hlen & Hlast & Hsleep & Hfirst & Htrace).
  exists retried. cbv zeta in *.
  cbn [RetryStage.rs_outcomes RetryStage.rs_sleeps RetryStage.rs_down app] in *.
  split; [exact Hout |].
  split; [eapply Forall_impl; [exact Hall | intros o; apply should_retry_spec] |].
  split; [exact Hlen |].
  split; [intros H; apply Hlast; now apply should_retry_spec |].
  split; [exact Hsleep |].
  split; [| exact Htrace].
  intros Hnot. destruct retried as [|o retried]; cbn [app hd_error] in Hfirst.
  - split; [reflexivity | congruence].
  - inversion Hall as [|? ? Ho _]; subst.
    apply should_retry_spec in Ho. congruence.
Qed.

End RetryFacts.

Lemma retry_stage_policy_witness :
  let stage := RetryMiddleware 3 [ConnectionError; TimeoutError] in
  last (registered_by_run None 8080 Sample.world0) = Some stage /\
  (exists retried,
     RetryStage.rs_outcomes (snd (RetryStage.on_request Sample.always_refused 1 2 stage 0))
       = retried ++ [fst (RetryStage.on_request Sample.always_refused 1 2 stage 0)] /\
     length retried = 3) /\
  RetryStage.rs_sleeps (snd (RetryStage.on_request Sample.always_refused 1 2 stage 0))
    = [1; 2; 4]%Z /\
  RetryStage.rs_down (snd (RetryStage.on_request Sample.always_refused 1 2 stage 0)) = 4 /\
  snd (calls_in_a_row Sample.always_refused 4 0) = 4.
Proof.
  intros stage.
  assert (Hlast : last (registered_by_run None 8080 Sample.world0) = Some stage)
    by reflexivity.
  split; [exact Hlast |].
  destruct (retry_stage_policy Sample.always_refused 1 2 None 8080 Sample.world0 stage 0
              Hlast)
    as (retried & Hout & _ & _ & Hfull & _).
  split; [| repeat split; reflexivity].
  exists retried. split; [exact Hout |].
  apply Hfull. eexists. split; reflexivity.
Defined.

Example retry_other_error_not_retried :
  RetryStage.on_request Sample.always_value_error 1 2
    (RetryMiddleware 3 [ConnectionError; TimeoutError]) 0
  = (Raise (Exc (mkExc ValueError "bad metric")),
     RetryStage.mkState [Raise (Exc (mkExc ValueError "bad metric"))] [] 1).
Proof. reflexivity. Qed.

(** * Further properties *)

Set Warnings "-clear-no-such-hyp".

(** ** [validate_credentials] and [main] *)

(** X1: the credentials are valid exactly when both variables are set to
    non-empty texts. *)
Theorem validate_credentials_iff (env : gmap string string) :
  Main.validate_credentials env = true <->
  exists token base_url,
    Main.getenv env "INSTANA_API_TOKEN" = Some token /\ token <> "" /\
    Main.getenv env "INSTANA_BASE_URL" = Some base_url /\ base_url <> "".
Proof.
  unfold Main.validate_credentials, Main.str_or.
  destruct (Main.getenv env "INSTANA_API_TOKEN") as [token|];
    destruct (Main.getenv env "INSTANA_BASE_URL") as [base_url|];
    repeat case_bool_decide; simpl; naive_solver.
Qed.

Section MainMore.

Context (py_int : string -> Outcome Exception Z).
Context (parse_args : list string -> Z -> Outcome BaseException Main.Namespace).
Context (repr_strs : list string -> string).
Context (serve : RunCall -> M World unit).

Local Abbreviation main_with := (Main.main_with py_int parse_args repr_strs serve).
Local Abbreviation main := (Main.main py_int parse_args repr_strs serve).
Local Abbreviation entry_point := (Main.entry_point py_int parse_args repr_strs serve).

(** X2: no [Exception] leaves [main]: each one is turned into an exit
    status by its handlers, so the handler of the [__main__] block is
    never entered and the block behaves as [main] itself. *)
Theorem main_raises_no_exception (argv : list string) (env : gmap string string)
    (w : World) :
  (forall e, fst (main argv env w) <> Raise (Exc e)) /\
  entry_point argv env w = main argv env w.
Proof.
  assert (Hno : forall e, fst (main argv env w) <> Raise (Exc e)).
  { intros e. unfold Main.main, Main.main_with, try_except_interrupt.
    destruct (Main.main_body _ _ _ _ _ _ _ w) as [[[]|[code| | |e']] w'];
      simpl; discriminate. }
  split; [exact Hno |].
  unfold Main.entry_point, try_except.
  destruct (main argv env w) as [[[]|[code| | |e]] w'] eqn:Hmain; try reflexivity.
  exfalso. exact (Hno e eq_refl).
Qed.

(** X3: once the server is started, the exit status follows the outcome
    of [mcp.run]: 0 when it returns or is interrupted from the keyboard, 1
    when it raises an [Exception], and the code of a [SystemExit]. *)
Theorem main_exit_follows_server (argv : list string) (env : gmap string string)
    (w : World) (p : Z) (args : Main.Namespace) :
  existsb Main.is_help_arg (tail argv) = false ->
  py_int (Main.getenv_or env "PORT" "8080") = Ok p ->
  parse_args (tail argv) p = Ok args ->
  stdio_mode args = false \/ Main.validate_credentials env = true ->
  Main.exit_status (fst (main argv env w)) =
    exit_after_serving
      (fst (serve (run_call (Main.ns_transport args) (Main.ns_port args))
              (world_at_serve (Main.ns_transport args) (Main.ns_port args)
                 (world_after_parse repr_strs args w)))).
Proof.
  intros Hhelp Hport Hparse Hstart. unfold Main.main.
  rewrite (main_parsed _ _ _ _ _ _ _ _ _ _ Hhelp Hport Hparse).
  assert (Hgo : stdio_mode args && negb (Main.validate_credentials env) = false).
  { destruct Hstart as [-> | ->]; [reflexivity | apply andb_false_r]. }
  rewrite Hgo. unfold under_handlers, try_except_interrupt, try_except.
  rewrite run_unfold.
  destruct (serve _ _) as [[[]|[code| | |e]] w2]; reflexivity.
Qed.

(** X4: the settings are stored before the server starts: the world in
    which [mcp.run] is entered holds the categories of [--tools] (none
    when the option is absent or empty) and the transport mode ([stdio]
    when none is given), and the four stages are registered. *)
Theorem main_configures_before_serving (argv : list string)
    (env : gmap string string) (w : World) (p : Z) (args : Main.Namespace) :
  existsb Main.is_help_arg (tail argv) = false ->
  py_int (Main.getenv_or env "PORT" "8080") = Ok p ->
  parse_args (tail argv) p = Ok args ->
  stdio_mode args = false \/ Main.validate_credentials env = true ->
  exists w1 call,
    main argv env w = under_handlers (serve call) w1 /\
    w_global_tool_categories w1 =
      match Main.ns_tools args with
      | Some tools => if bool_decide (tools = "") then None
                      else Some (split_on "," tools)
      | None => None
      end /\
    w_global_mcp_mode w1 = Main.str_or (Main.ns_transport args) "stdio" /\
    w_middleware w1 = w_middleware w ++ pipeline /\
    w_runs w1 = w_runs w ++ [call].
Proof.
  intros Hhelp Hport Hparse Hstart. unfold Main.main.
  rewrite (main_parsed _ _ _ _ _ _ _ _ _ _ Hhelp Hport Hparse).
  assert (Hgo : stdio_mode args && negb (Main.validate_credentials env) = false).
  { destruct Hstart as [-> | ->]; [reflexivity | apply andb_false_r]. }
  rewrite Hgo.
  exists (world_at_serve (Main.ns_transport args) (Main.ns_port args)
            (world_after_parse repr_strs args w)),
    (run_call (Main.ns_transport args) (Main.ns_port args)).
  split; [| repeat split].
  unfold under_handlers, try_except_interrupt, try_except.
  now rewrite run_unfold.
Qed.

End MainMore.

Lemma main_exit_follows_server_witness :
  Main.exit_status
    (fst (Main.main Sample.py_int Sample.parse_args Sample.repr_strs serve_failing
            ["mcp-instana"; "--transport"; "streamable-http"] Sample.empty_env
            Sample.world0)) = Some 1%Z /\
  Main.exit_status
    (fst (Main.main Sample.py_int Sample.parse_args Sample.repr_strs Sample.serve
            ["mcp-instana"] env_with_credentials Sample.world0)) = Some 0%Z.
Proof.
  split.
  - rewrite (main_exit_follows_server Sample.py_int Sample.parse_args Sample.repr_strs
               serve_failing ["mcp-instana"; "--transport"; "streamable-http"]
               Sample.empty_env Sample.world0 8080
               (Main.mkNamespace false (Some "streamable-http") None 8080)
               eq_refl eq_refl eq_refl (or_introl eq_refl)).
    reflexivity.
  - rewrite (main_exit_follows_server Sample.py_int Sample.parse_args Sample.repr_strs
               Sample.serve ["mcp-instana"] env_with_credentials Sample.world0 8080
               (Main.mkNamespace false None None 8080)
               eq_refl eq_refl eq_refl (or_intror eq_refl)).
    reflexivity.
Defined.

Lemma main_configures_before_serving_witness :
  exists w1,
    Main.main Sample.py_int Sample.parse_args Sample.repr_strs Sample.serve
      ["mcp-instana"; "--tools"; "infra,app"] env_with_credentials Sample.world0
      = (Ok tt, w1) /\
    w_global_tool_categories w1 = Some ["infra"; "app"] /\
    w_global_mcp_mode w1 = "stdio" /\
    w_middleware w1 = pipeline.
Proof.
  destruct (main_configures_before_serving Sample.py_int Sample.parse_args
              Sample.repr_strs Sample.serve ["mcp-instana"; "--tools"; "infra,app"]
              env_with_credentials Sample.world0 8080
              (Main.mkNamespace false None (Some "infra,app") 8080)
              eq_refl eq_refl eq_refl (or_intror eq_refl))
    as (w1 & call & Hmain & Hcats & Hmode & Hmw & _).
  exists w1. repeat split; assumption.
Defined.

(** ** The categories of [--tools] *)

Lemma split_on_nonempty (sep : ascii) (s : string) : split_on sep s <> [].
Proof.
  destruct s as [|c s]; simpl; [discriminate |].
  destruct (decide (c = sep)); [discriminate |].
  destruct (split_on sep s); discriminate.
Qed.

Lemma concat_split_on (s : string) : String.concat "," (split_on "," s) = s.
Proof.
  induction s as [|c s IH]; [reflexivity |].
  simpl split_on. destruct (decide (c = ","%char)) as [-> | Hc].
  - pose proof (split_on_nonempty "," s) as Hne.
    destruct (split_on "," s) as [|piece pieces] eqn:Hs; [contradiction |].
    change (String.concat "," ("" :: piece :: pieces))
      with ("" +:+ "," +:+ String.concat "," (piece :: pieces)).
    now rewrite IH.
  - destruct (split_on "," s) as [|piece pieces] eqn:Hs.
    + now destruct (split_on_nonempty "," s).
    + rewrite <- IH. destruct pieces; reflexivity.
Qed.

Lemma split_on_comma_free (s : string) : Forall comma_free (split_on "," s).
Proof.
  induction s as [|c s IH]; simpl.
  - constructor; [| constructor]. intros c [].
  - destruct (decide (c = ","%char)) as [-> | Hc].
    + constructor; [intros d [] | exact IH].
    + destruct (split_on "," s) as [|piece pieces].
      * constructor; [| constructor]. intros d [<- | []]. exact Hc.
      * inversion IH as [|? ? Hpiece Hrest]; subst.
        constructor; [| exact Hrest].
        intros d [<- | Hd]; [exact Hc | now apply Hpiece].
Qed.

Section MainTools.

Context (py_int : string -> Outcome Exception Z).
Context (parse_args : list string -> Z -> Outcome BaseException Main.Namespace).
Context (repr_strs : list string -> string).
Context (serve : RunCall -> M World unit).

Local Abbreviation main := (Main.main py_int parse_args repr_strs serve).

(** X5: a non-empty [--tools] value always configures a filter: the
    categories stored when the server starts form a non-empty list of
    comma-free texts which, joined with commas, give the value back. *)
Theorem main_tools_categories (argv : list string) (env : gmap string string)
    (w : World) (p : Z) (args : Main.Namespace) (tools : string) :
  existsb Main.is_help_arg (tail argv) = false ->
  py_int (Main.getenv_or env "PORT" "8080") = Ok p ->
  parse_args (tail argv) p = Ok args ->
  stdio_mode args = false \/ Main.validate_credentials env = true ->
  Main.ns_tools args = Some tools ->
  tools <> "" ->
  exists w1 call categories,
    main argv env w = under_handlers (serve call) w1 /\
    w_global_tool_categories w1 = Some categories /\
    Server.no_categories (Some categories) = false /\
    Forall comma_free categories /\
    String.concat "," categories = tools.
Proof.
  intros Hhelp Hport Hparse Hstart Htools Hne. unfold Main.main.
  rewrite (main_parsed _ _ _ _ _ _ _ _ _ _ Hhelp Hport Hparse).
  assert (Hgo : stdio_mode args && negb (Main.validate_credentials env) = false).
  { destruct Hstart as [-> | ->]; [reflexivity | apply andb_false_r]. }
  rewrite Hgo.
  exists (world_at_serve (Main.ns_transport args) (Main.ns_port args)
            (world_after_parse repr_strs args w)),
    (run_call (Main.ns_transport args) (Main.ns_port args)),
    (split_on "," tools).
  split; [| split; [| split; [| split]]].
  - unfold under_handlers, try_except_interrupt, try_except. now rewrite run_unfold.
  - cbn [world_at_serve world_after_parse w_global_tool_categories].
    unfold categories_of. rewrite Htools.
    now rewrite bool_decide_eq_false_2 by exact Hne.
  - pose proof (split_on_nonempty "," tools).
    destruct (split_on "," tools); [contradiction | reflexivity].
  - apply split_on_comma_free.
  - apply concat_split_on.
Qed.

(** X6: the help flags are looked at before the command line is parsed:
    with a help flag present, [main] behaves the same whatever argparse
    would say, whatever the server would do and whatever the environment
    holds besides [PORT]. *)
Theorem help_ignores_parser_and_server
    (parse_args' : list string -> Z -> Outcome BaseException Main.Namespace)
    (repr_strs' : list string -> string) (serve' : RunCall -> M World unit)
    (argv : list string) (env env' : gmap string string) (w : World) :
  Exists (fun a => a ∈ Main.help_args) (tail argv) ->
  Main.getenv_or env "PORT" "8080" = Main.getenv_or env' "PORT" "8080" ->
  main argv env w = Main.main py_int parse_args' repr_strs' serve' argv env' w.
Proof.
  intros Hhelp Hport. unfold Main.main.
  destruct (py_int (Main.getenv_or env "PORT" "8080")) as [p|e] eqn:Hp.
  - rewrite (main_help _ _ _ _ _ _ _ _ p Hhelp Hp).
    rewrite Hport in Hp.
    now rewrite (main_help _ _ _ _ _ _ _ _ p Hhelp Hp).
  - rewrite (main_bad_port _ _ _ _ _ _ _ _ e Hp).
    rewrite Hport in Hp.
    now rewrite (main_bad_port _ _ _ _ _ _ _ _ e Hp).
Qed.

End MainTools.

Lemma main_tools_categories_witness :
  exists w1 categories,
    Main.main Sample.py_int Sample.parse_args Sample.repr_strs Sample.serve
      ["mcp-instana"; "--tools"; "infra,,app"] env_with_credentials Sample.world0
      = (Ok tt, w1) /\
    w_global_tool_categories w1 = Some categories /\
    String.concat "," categories = "infra,,app".
Proof.
  destruct (main_tools_categories Sample.py_int Sample.parse_args Sample.repr_strs
              Sample.serve ["mcp-instana"; "--tools"; "infra,,app"]
              env_with_credentials Sample.world0 8080
              (Main.mkNamespace false None (Some "infra,,app") 8080) "infra,,app"
              eq_refl eq_refl eq_refl (or_intror eq_refl) eq_refl ltac:(discriminate))
    as (w1 & call & categories & Hmain & Hcats & _ & _ & Hjoin).
  exists w1, categories. repeat split; assumption.
Defined.

Lemma help_ignores_parser_and_server_witness :
  Main.main Sample.py_int Sample.parse_args Sample.repr_strs Sample.serve
    ["mcp-instana"; "-h"; "--port"; "zero"] Sample.empty_env Sample.world0
  = Main.main Sample.py_int parse_refusing Sample.repr_strs serve_failing
      ["mcp-instana"; "-h"; "--port"; "zero"] env_with_credentials Sample.world0.
Proof.
  apply help_ignores_parser_and_server.
  - apply Exists_cons_hd. repeat constructor.
  - reflexivity.
Defined.

(** ** [_safe_dump] and the tag filter *)

Section SafeDumpMore.

Context (json_dumps py_str : PyVal -> Outcome Exception string).

(** X7: for every limit [max_len >= 0] the text [_safe_dump] returns has
    at most [max_len + 14] characters, and a text longer than [max_len] is
    [max_len] characters followed by the truncation marker. *)
Theorem safe_dump_bounded (obj : PyVal) (max_len : Z) :
  (0 <= max_len)%Z ->
  let logged := Server._safe_dump json_dumps py_str obj max_len in
  String.length logged <= Z.to_nat max_len + 14 /\
  (Z.to_nat max_len < String.length logged ->
   exists kept, logged = kept +:+ "...(truncated)" /\
                String.length kept = Z.to_nat max_len).
Proof.
  intros Hpos. unfold Server._safe_dump.
  set (s := match json_dumps obj with
            | Ok s => s
            | Raise _ => match py_str obj with
                         | Ok s => s
                         | Raise _ => "<unserializable>"
                         end
            end).
  cbv zeta.
  destruct (Z.ltb_spec max_len (Z.of_nat (String.length s))) as [Hlong|Hshort].
  - assert (Hslice : slice_to max_len s = substring 0 (Z.to_nat max_len) s)
      by (rewrite <- (Z2Nat.id max_len Hpos) at 1; apply slice_to_nonneg).
    rewrite Hslice.
    assert (Hcut : String.length (substring 0 (Z.to_nat max_len) s) = Z.to_nat max_len)
      by (apply length_substring_0; lia).
    split.
    + rewrite length_append, Hcut. simpl. lia.
    + intros _. eexists. split; [reflexivity | exact Hcut].
  - split; [lia |]. intros Hlt. lia.
Qed.

End SafeDumpMore.

Lemma safe_dump_bounded_witness :
  String.length
    (Server._safe_dump Sample.json_dumps Sample.py_str Sample.long_arguments 10) <= 24.
Proof.
  apply (safe_dump_bounded Sample.json_dumps Sample.py_str Sample.long_arguments 10).
  lia.
Defined.

(** X8: the filter reads the configured categories as a set: two lists
    with the same elements, in any order and with any repetitions, select
    the same tools. *)
Theorem filter_loop_category_set (categories categories' : list string)
    (tools : list Tool) :
  (forall c, c ∈ categories <-> c ∈ categories') ->
  Server.filter_loop categories tools = Server.filter_loop categories' tools.
Proof.
  intros Hsame. rewrite !filter_loop_filter.
  apply list_filter_iff. intros t. unfold has_category.
  split; intros (c & Hc & Ht); exists c; split; try assumption; now apply Hsame.
Qed.

Lemma filter_loop_category_set_witness :
  Server.filter_loop ["infra"; "app"] Sample.demo_tools
  = Server.filter_loop ["app"; "infra"; "app"] Sample.demo_tools.
Proof.
  apply filter_loop_category_set. intros c. rewrite !elem_of_cons. tauto.
Defined.

(** X9: filtering is idempotent, and under any filter a tool without tags
    is never listed. *)
Theorem filter_loop_idempotent (categories : list string) (tools : list Tool) :
  Server.filter_loop categories (Server.filter_loop categories tools)
  = Server.filter_loop categories tools /\
  (forall t, tool_tags t = ∅ -> t ∉ Server.filter_loop categories tools).
Proof.
  rewrite !filter_loop_filter. split.
  - induction tools as [|t tools IH]; [reflexivity |].
    rewrite filter_cons. destruct (decide (has_category categories t)) as [Ht|Ht].
    + rewrite filter_cons, decide_True by exact Ht. now rewrite IH.
    + exact IH.
  - intros t Hempty Hin. apply list_elem_of_filter in Hin as [(c & _ & Hc) _].
    rewrite Hempty in Hc. set_solver.
Qed.

(** X10: widening the filter never hides a tool: with more categories
    configured, the tools listed before are still listed, in the same
    order. *)
Theorem filter_loop_monotone (categories categories' : list string)
    (tools : list Tool) :
  (forall c, c ∈ categories -> c ∈ categories') ->
  Server.filter_loop categories tools `sublist_of` Server.filter_loop categories' tools.
Proof.
  intros Hsub. rewrite !filter_loop_filter.
  induction tools as [|t tools IH]; [constructor |].
  rewrite !filter_cons.
  destruct (decide (has_category categories t)) as [Ht|Ht].
  - rewrite decide_True.
    + now constructor.
    + destruct Ht as (c & Hc & Hin). exists c. split; [now apply Hsub | exact Hin].
  - destruct (decide (has_category categories' t)); [now constructor | exact IH].
Qed.

Lemma filter_loop_monotone_witness :
  Server.filter_loop ["infra"] Sample.demo_tools
    `sublist_of` Server.filter_loop ["infra"; "trending"] Sample.demo_tools.
Proof.
  apply filter_loop_monotone. intros c. rewrite !elem_of_cons. tauto.
Defined.

Lemma filter_loop_idempotent_witness :
  let untagged := mkTool "ping" "no tags" ∅ true in
  untagged ∉ Server.filter_loop ["infra"] (untagged :: Sample.demo_tools).
Proof.
  intros untagged.
  apply (filter_loop_idempotent ["infra"] (untagged :: Sample.demo_tools)).
  reflexivity.
Defined.

(** ** [LoggingMiddleware.on_message], the records *)

Section LoggingMore.

Context (json_dumps py_str py_format : PyVal -> Outcome Exception string).
Context (format_ms : Z -> string).
Context {R : Type}.

Local Abbreviation log_inbound := (@Server.log_inbound json_dumps py_str py_format R).
Local Abbreviation log_completed := (@Server.log_completed py_format format_ms R).
Local Abbreviation on_message :=
  (@Server.on_message json_dumps py_str py_format format_ms R).

Ltac close_with_logs :=
  first
    [ eexists _, [_]; split; [reflexivity | simpl; lia]
    | eexists _, [_; _]; split; [reflexivity | simpl; lia] ].

(** The first [try] leaves one or two records: the beginning of the
    message (and the arguments of a tool call), or the failure to inspect
    it. *)
Lemma inbound_counted (context : PyVal) (f : Server.Frame R) (w : World) :
  exists f1 pre,
    try_except (log_inbound context)
      (fun e =>
         Server.in_world
           (logger.exception
              ("LoggingMiddleware failed to inspect the inbound message: "
                 +:+ exc_text e))) (f, w)
    = (Ok tt, (f1, add_logs pre w)) /\
    1 <= length pre <= 2.
Proof.
  unfold try_except, Server.log_inbound, bind, call, Server.assign, Server.local,
    Server.in_world, logger.info, logger.debug, logger.exception, modify, read_local,
    ret, raise_exc, raise.
  cbn [fst snd Server.set_method Server.set_source Server.set_msg Server.set_tool_name
       Server.set_tool_args Server.l_msg Server.l_tool_name Server.l_source
       Server.l_tool_args Server.l_method].
  repeat (case_match; simplify_eq;
          cbn [fst snd Server.set_method Server.set_source Server.set_msg
               Server.set_tool_name Server.set_tool_args Server.l_msg
               Server.l_tool_name Server.l_source Server.l_tool_args Server.l_method]
            in *);
    close_with_logs.
Qed.

(** The last [try] leaves at most one record. *)
Lemma completed_counted (f : Server.Frame R) (w : World) :
  exists post,
    try_except log_completed (fun _ => ret tt) (f, w) = (Ok tt, (f, add_logs post w)) /\
    length post <= 1.
Proof.
  unfold try_except, Server.log_completed, Server.local, bind, logger.info.
  simpl.
  destruct (Server.l_tool_name f) as [tool_name|]; simpl;
    [| exists []; split; [reflexivity | simpl; lia]].
  destruct (truthy tool_name); cbn [fst snd].
  - destruct (py_format tool_name) as [s|e]; simpl;
      [| exists []; split; [reflexivity | simpl; lia]].
    destruct (Server.l_elapsed_ms f) as [t|]; simpl;
      [| exists []; split; [reflexivity | simpl; lia]].
    eexists [_]; split; [reflexivity | simpl; lia].
  - destruct (Server.l_method f) as [method|]; simpl;
      [| exists []; split; [reflexivity | simpl; lia]].
    destruct (py_format method) as [s|e]; simpl;
      [| exists []; split; [reflexivity | simpl; lia]].
    destruct (Server.l_elapsed_ms f) as [t|]; simpl;
      [| exists []; split; [reflexivity | simpl; lia]].
    eexists [_]; split; [reflexivity | simpl; lia].
Qed.

(** X11: no message passes unlogged.  Before the downstream handler runs,
    [on_message] has logged one or two records (the beginning of the
    message, or the failure to inspect it); after the handler returns it
    logs at most one more, and none when the handler raises. *)
Theorem on_message_logs_every_message (context : PyVal)
    (call_next : PyVal -> M World R) (w : World) :
  exists pre,
    1 <= length pre <= 2 /\
    match call_next context (add_logs pre w) with
    | (Ok result, w2) =>
        exists post,
          length post <= 1 /\
          on_message context call_next w = (Ok result, add_logs post w2)
    | (Raise e, w2) => on_message context call_next w = (Raise e, w2)
    end.
Proof.
  destruct (inbound_counted context Server.frame0 w) as (f1 & pre & Hpre & Hcount).
  exists pre. split; [exact Hcount |].
  rewrite (on_message_unfold json_dumps py_str py_format format_ms context call_next w
             f1 pre Hpre).
  destruct (call_next context (add_logs pre w)) as [[result|e] w2]; [| reflexivity].
  cbv zeta.
  match goal with
  | |- context [try_except _ _ (?f, w2)] =>
      destruct (completed_counted f w2) as (post & -> & Hpost)
  end.
  exists post. split; [exact Hpost | reflexivity].
Qed.

End LoggingMore.

(** ** [list_top_applications_by_performance], the other paths *)

Section ToolMore.

Context (now_ms : Z) (client_enter : Outcome Exception unit).
Context (Response : Type).
Context (get_application_data_metrics_v2 : GetApplicationMetrics -> Outcome Exception Response).
Context (to_dict : Response -> Outcome Exception PyVal).
Context (Context_error : TopPerformance.Context -> string -> Outcome BaseException unit).

Local Abbreviation tool :=
  (TopPerformance.list_top_applications_by_performance now_ms client_enter Response
     get_application_data_metrics_v2 to_dict Context_error).
Local Abbreviation request := (request_now now_ms).


(** X13: [top_n] and [order] are accepted and never used: neither the
    request, nor the result, nor any log record or notification depends
    on them. *)
Theorem tool_ignores_top_n_and_order (metric : option string)
    (to_time_ms duration_ms top_n top_n' : option Z)
    (aggregation order order' : option string) (ctx : option TopPerformance.Context)
    (w : World) :
  tool metric to_time_ms duration_ms top_n aggregation order ctx w
  = tool metric to_time_ms duration_ms top_n' aggregation order' ctx w.
Proof. reflexivity. Qed.



(** X15: a failure to enter the API client is not the tool's to report:
    the exception leaves the tool as it is, and nothing is logged, sent or
    notified. *)
Theorem tool_client_failure_propagates (metric : option string)
    (to_time_ms duration_ms top_n : option Z) (aggregation order : option string)
    (ctx : option TopPerformance.Context) (w : World) (e : Exception) :
  client_enter = Raise e ->
  tool metric to_time_ms duration_ms top_n aggregation order ctx w = (Raise (Exc e), w).
Proof.
  intros Henter. unfold TopPerformance.list_top_applications_by_performance.
  rewrite Henter. reflexivity.
Qed.

(** X16: one call, at most one request.  Whatever the arguments and
    whatever the client does, the tool sends no request or exactly one,
    and leaves the settings, the middleware and the record of [mcp.run]
    as they are. *)
Theorem tool_sends_at_most_one_request (metric : option string)
    (to_time_ms duration_ms top_n : option Z) (aggregation order : option string)
    (ctx : option TopPerformance.Context) (w : World) :
  let w' := snd (tool metric to_time_ms duration_ms top_n aggregation order ctx w) in
  (w_api_requests w' = w_api_requests w \/
   exists sent, w_api_requests w' = w_api_requests w ++ [sent]) /\
  w_global_tool_categories w' = w_global_tool_categories w /\
  w_global_mcp_mode w' = w_global_mcp_mode w /\
  w_middleware w' = w_middleware w /\
  w_runs w' = w_runs w.
Proof.
  cbv zeta.
  remember (tool metric to_time_ms duration_ms top_n aggregation order ctx w) as res
    eqn:Hres.
  unfold TopPerformance.list_top_applications_by_performance, try_except, bind,
    logger.debug, logger.error, modify, TopPerformance.ctx_error, await in Hres.
  destruct client_enter as [[]|e0]; cbn [call ret raise] in Hres;
    [| subst res; repeat split; now left].
  destruct to_time_ms as [t|]; cbn [read_local ret raise_exc raise] in Hres;
    [subst res; repeat split; now left |].
  destruct (get_application_data_metrics_v2 _) as [response|e];
    cbn [call ret raise] in Hres.
  - destruct (to_dict response) as [d|e]; cbn [call ret raise] in Hres.
    + subst res. destruct w. world_cbv. cbn [fst snd]. repeat split.
      right. eexists. reflexivity.
    + destruct ctx as [c|]; [destruct (Context_error c _) as [[]|b0] |];
        cbn [call ret raise raise_exc] in Hres; subst res; destruct w;
        world_cbv; cbn [fst snd]; repeat split; right; eexists; reflexivity.
  - destruct ctx as [c|]; [destruct (Context_error c _) as [[]|b0] |];
      cbn [call ret raise raise_exc] in Hres; subst res; destruct w;
      world_cbv; cbn [fst snd]; repeat split; right; eexists; reflexivity.
Qed.

(** Once the client is entered, an exception that leaves the tool is the
    [UnboundLocalError] of the unbound [to_time], the [AttributeError] of
    [ctx.error] on [None], the [ToolError] the handler raises, or what
    [ctx.error] of the context raised on the message of the handler. *)
Lemma tool_raise_cases (metric : option string)
    (to_time_ms duration_ms top_n : option Z) (aggregation order : option string)
    (ctx : option TopPerformance.Context) (w : World) (b : BaseException) :
  client_enter = Ok tt ->
  fst (tool metric to_time_ms duration_ms top_n aggregation order ctx w) = Raise b ->
  (exists e,
     b = Exc e /\
     (exc_class e = ToolError \/ exc_class e = AttributeError
      \/ exc_class e = UnboundLocalError)) \/
  (exists c e0,
     ctx = Some c /\
     Context_error c
       ("Error calling tool list_top_applications_by_performance: " +:+ exc_text e0)
     = Raise b).
Proof.
  intros Henter. unfold TopPerformance.list_top_applications_by_performance.
  rewrite Henter. unfold bind at 1. cbn [call ret]. unfold bind at 1.
  destruct to_time_ms as [t|]; cbn [read_local ret raise_exc raise fst].
  - intros [= <-]. left. eexists. split; [reflexivity | auto].
  - unfold try_except, bind, logger.debug, logger.error, modify, TopPerformance.ctx_error,
      await.
    destruct (get_application_data_metrics_v2 _) as [response|e]; cbn [call ret raise].
    + destruct (to_dict response) as [d|e]; cbn [call ret raise fst];
        [discriminate |].
      destruct ctx as [c|]; cbn [call ret raise fst].
      * change ("Error calling tool " +:+ TopPerformance.co_name +:+ ": " +:+ exc_text e)
          with ("Error calling tool list_top_applications_by_performance: "
                  +:+ exc_text e).
        destruct (Context_error c _) as [[]|b0] eqn:Hsend; cbn [raise_exc raise fst].
        -- intros [= <-]. left. eexists. split; [reflexivity | auto].
        -- intros [= <-]. right. exists c, e. split; [reflexivity | exact Hsend].
      * intros [= <-]. left. eexists. split; [reflexivity | auto].
    + destruct ctx as [c|]; cbn [call ret raise fst].
      * change ("Error calling tool " +:+ TopPerformance.co_name +:+ ": " +:+ exc_text e)
          with ("Error calling tool list_top_applications_by_performance: "
                  +:+ exc_text e).
        destruct (Context_error c _) as [[]|b0] eqn:Hsend; cbn [raise_exc raise fst].
        -- intros [= <-]. left. eexists. split; [reflexivity | auto].
        -- intros [= <-]. right. exists c, e. split; [reflexivity | exact Hsend].
      * intros [= <-]. left. eexists. split; [reflexivity | auto].
Qed.



(** For the retry stage modelled on the spec, around a call of the tool:
    when [ctx.error] raises no connection or timeout error, the tool is
    called once, whatever the API client does. *)
Corollary retry_stage_calls_tool_once (base_delay backoff_multiplier : Z)
    (a : TopPerformance.CallArgs) (mode : option string) (port : Z) (w0 w : World)
    (stage : Middleware) :
  client_enter = Ok tt ->
  (forall c msg e', Context_error c msg = Raise (Exc e') ->
                    isinstance e' [ConnectionError; TimeoutError] = false) ->
  last (registered_by_run mode port w0) = Some stage ->
  let run_stage :=
    RetryStage.on_request
      (TopPerformance.invoke now_ms client_enter Response
         get_application_data_metrics_v2 to_dict Context_error a)
      base_delay backoff_multiplier stage w in
  RetryStage.rs_outcomes (snd run_stage) = [fst run_stage] /\
  RetryStage.rs_sleeps (snd run_stage) = [] /\
  fst run_stage =
    fst (TopPerformance.invoke now_ms client_enter Response
           get_application_data_metrics_v2 to_dict Context_error a w) /\
  RetryStage.rs_down (snd run_stage) =
    snd (TopPerformance.invoke now_ms client_enter Response
           get_application_data_metrics_v2 to_dict Context_error a w).
Proof.
  intros Henter Hsend. rewrite registered_by_run_last. intros [= <-]. cbv zeta.
  unfold RetryStage.on_request.
  destruct (attempt_loop_spec
              (TopPerformance.invoke now_ms client_enter Response
                 get_application_data_metrics_v2 to_dict Context_error a)
              base_delay backoff_multiplier [ConnectionError; TimeoutError] 3 0
              (RetryStage.mkState [] [] w))
    as (retried & Hout & Hall & _ & _ & Hsleep & Hfirst & Htrace).
  cbv zeta in *.
  cbn [RetryStage.rs_outcomes RetryStage.rs_sleeps RetryStage.rs_down app] in *.
  destruct retried as [|o retried]; cbn [app hd_error length] in *.
  - split; [exact Hout |]. split; [exact Hsleep |].
    rewrite calls_in_a_row_1 in Htrace. injection Htrace as Hr Hd.
    split; [symmetry; exact Hr | symmetry; exact Hd].
  - exfalso. apply Forall_cons in Hall as [Ho _].
    injection Hfirst as Hfirst.
    destruct o as [v|b]; [discriminate Ho |].
    symmetry in Hfirst. unfold TopPerformance.invoke in Hfirst.
    destruct (tool_raise_cases _ _ _ _ _ _ _ _ _ Henter Hfirst)
      as [(e & -> & Hclass) | (c & e0 & _ & Hc)].
    + cbn [RetryStage.should_retry] in Ho. unfold isinstance in Ho.
      destruct e as [cls text]. cbn [exc_class] in *.
      destruct Hclass as [-> | [-> | ->]]; discriminate Ho.
    + destruct b as [code| | |e]; cbn [RetryStage.should_retry] in Ho;
        try discriminate Ho.
      rewrite (Hsend _ _ _ Hc) in Ho. discriminate Ho.
Qed.

End ToolMore.

(** *** The tool on further calls *)



Lemma tool_client_failure_propagates_witness :
  TopPerformance.invoke 1700000000000
    (Raise (mkExc ValueError "INSTANA_BASE_URL is not set")) PyVal Sample.api_empty Ok
    Sample.ctx_delivers Sample.no_arguments Sample.world0
  = (Raise (Exc (mkExc ValueError "INSTANA_BASE_URL is not set")), Sample.world0).
Proof.
  exact (tool_client_failure_propagates 1700000000000
           (Raise (mkExc ValueError "INSTANA_BASE_URL is not set")) PyVal
           Sample.api_empty Ok Sample.ctx_delivers (Some "latency") None
           (Some 3600000%Z) (Some 10%Z)
           (Some "MEAN") (Some "desc") None Sample.world0
           (mkExc ValueError "INSTANA_BASE_URL is not set") eq_refl).
Defined.



(** With the retry stage modelled on the spec around it, the tool meets a
    refused connection once when the failure is reported to the client. *)
Example retry_stage_calls_tool_once_refused :
  let run_stage :=
    RetryStage.on_request
      (Sample.tool_refused (Sample.with_ctx (TopPerformance.mkContext "req-1")))
      1 2 (RetryMiddleware 3 [ConnectionError; TimeoutError]) Sample.world0 in
  RetryStage.rs_outcomes (snd run_stage) = [fst run_stage] /\
  RetryStage.rs_sleeps (snd run_stage) = [] /\
  length (w_api_requests (RetryStage.rs_down (snd run_stage))) = 1.
Proof. repeat split; reflexivity. Qed.

(** When the notification itself fails on the closed connection, the
    [BrokenPipeError] of [ctx.error] leaves the tool, and the same stage
    retries: the tool is called four times and sends four requests. *)
Example retry_stage_retries_unreported_failure :
  let run_stage :=
    RetryStage.on_request
      (Sample.tool_refused_unreported (Sample.with_ctx (TopPerformance.mkContext "req-1")))
      1 2 (RetryMiddleware 3 [ConnectionError; TimeoutError]) Sample.world0 in
  fst run_stage = Raise (Exc (mkExc BrokenPipeError "[Errno 32] Broken pipe")) /\
  length (RetryStage.rs_outcomes (snd run_stage)) = 4 /\
  RetryStage.rs_sleeps (snd run_stage) = [1; 2; 4]%Z /\
  length (w_api_requests (RetryStage.rs_down (snd run_stage))) = 4.
Proof. repeat split; reflexivity. Qed.
